(** * pyopenjtalk: the Python layer over the OpenJTalk and HTSEngine bindings

    A shallow embedding of [pyopenjtalk/__init__.py].  The module keeps three
    global slots (the analyzer, the synthesizer and the accent predictor),
    fills them lazily, downloads the dictionary when its directory is
    missing, and forwards every call to a native method.

    The native classes ([OpenJTalk], [HTSEngine]), the optional [marine]
    package and [merge_njd_marine_features] are not part of the module: they
    are collected in the interface [Native].  The file system, the remote
    server and the standard output are explicit components of the state. *)

From Stdlib Require Import ZArith PrimFloat.
From stdpp Require Import base option list gmap strings.

Open Scope string_scope.

(** ** Python values, exceptions and results *)

#[local] Set Warnings "-register-all".

Inductive pyval : Type :=
| PyNone
| PyBool (b : bool)
| PyInt (z : Z)
| PyFloat (x : float)
| PyStr (s : string)
| PyList (items : list pyval)
| PyTuple (items : list pyval).

(** An exception: the name of its class and its message. *)
Inductive exn : Type :=
| Exn (cls : string) (msg : string).

Definition exn_class (e : exn) : string := let 'Exn c _ := e in c.
Definition exn_msg (e : exn) : string := let 'Exn _ m := e in m.

Definition ImportError (msg : string) : exn := Exn "ImportError" msg.
Definition ModuleNotFoundError (msg : string) : exn := Exn "ModuleNotFoundError" msg.
Definition AttributeError (msg : string) : exn := Exn "AttributeError" msg.
Definition URLError (msg : string) : exn := Exn "URLError" msg.
Definition ReadError (msg : string) : exn := Exn "ReadError" msg.
Definition FileNotFoundError (msg : string) : exn := Exn "FileNotFoundError" msg.

Inductive result (A : Type) : Type :=
| Ok (a : A)
| Raise (e : exn).
Arguments Ok {A} a.
Arguments Raise {A} e.

(** ** The file system and the remote server *)

(** What the fixed URL serves on one request. *)
Inductive archive : Type :=
| Dictionary
    (* the tar file of the dictionary directory *)
| Malformed (e : exn) (partial : bool)
    (* extraction raises [e]; [partial] tells whether the directory had
       already been created by then *).

Inductive response : Type :=
| Unreachable (e : exn)
| Served (a : archive).

Inductive node : Type :=
| Directory
| File (tar : option archive).

(** ** Events seen from outside the process *)

Inductive event : Type :=
| Print (line : string)
| Urlretrieve (url filename : string)
| Extractall (filename path : string)
| Remove (filename : string)
| NewOpenJTalk (dn_mecab : string)
| NewHTSEngine (voice : string)
| NewPredictor.

Fixpoint count (p : event -> bool) (t : list event) : nat :=
  match t with
  | [] => 0
  | e :: t' => (if p e then 1 else 0) + count p t'
  end.

Definition is_urlretrieve (e : event) : bool :=
  match e with Urlretrieve _ _ => true | _ => false end.
Definition is_remove (e : event) : bool :=
  match e with Remove _ => true | _ => false end.
Definition is_new_jtalk (e : event) : bool :=
  match e with NewOpenJTalk _ => true | _ => false end.
Definition is_new_htsengine (e : event) : bool :=
  match e with NewHTSEngine _ => true | _ => false end.

(** ** The synthesizer handle *)

(** Modelled from the spec: the class [HTSEngine] of [.htsengine] is missing.
    The spec gives the handle a voice model file and two mutable fields,
    speed and pitch offset, which [set_speed] and [add_half_tone] set; the
    sampling frequency is queried from the handle. *)
Record HTSEngine : Type := mkHTSEngine {
  voice : string;
  sampling_frequency : Z;
  speed : float;
  half_tone : float
}.

(** Modelled from the spec: [HTSEngine.get_sampling_frequency] is missing;
    the sample rate is queried from the handle. *)
Definition get_sampling_frequency (h : HTSEngine) : Z := sampling_frequency h.

(** Modelled from the spec: [HTSEngine.set_speed] is missing; it sets the
    speed field of the handle. *)
Definition set_speed (x : float) (h : HTSEngine) : HTSEngine :=
  {| voice := voice h; sampling_frequency := sampling_frequency h;
     speed := x; half_tone := half_tone h |}.

(** Modelled from the spec: [HTSEngine.add_half_tone] is missing; it sets
    the pitch-offset field of the handle. *)
Definition add_half_tone (x : float) (h : HTSEngine) : HTSEngine :=
  {| voice := voice h; sampling_frequency := sampling_frequency h;
     speed := speed h; half_tone := x |}.

(** ** The native collaborators *)

(** The methods of the analyzer and of the predictor use their handle
    read-only; a constructor reads the files it is pointed at. *)
Class Native : Type := {
  OpenJTalk : Type;
  OpenJTalk_init : string -> gmap string node -> result OpenJTalk;
  OpenJTalk_g2p : OpenJTalk -> list pyval -> list (string * pyval) -> result pyval;
  OpenJTalk_run_frontend : OpenJTalk -> pyval -> result pyval;
  OpenJTalk_make_label : OpenJTalk -> pyval -> result pyval;
  HTSEngine_init : string -> gmap string node -> result HTSEngine;
  HTSEngine_synthesize : HTSEngine -> pyval -> result pyval;
  Predictor : Type;
  (* what importing a module of the optional package raises, if anything *)
  import_error : string -> option exn;
  Predictor_init : result Predictor;
  Predictor_predict : Predictor -> pyval -> result pyval;
  convert_njd_feature_to_marine_feature : pyval -> result pyval;
  merge_njd_marine_features : pyval -> pyval -> result pyval
}.

(** The process environment: where the package is installed and the value of
    the environment variable OPEN_JTALK_DICT_DIR, if it is set. *)
Record environ : Type := {
  pkg_dir : string;
  getenv_OPEN_JTALK_DICT_DIR : option string
}.

(** ** The progress bar *)

(** The part of a [tqdm] bar that [_TqdmUpTo] uses: the counter [n] and the
    expected [total].  [tqdm.update(k)] adds [k] to the counter. *)
Record tqdm : Type := {
  bar_n : Z;
  bar_total : option Z
}.

Definition update (k : Z) (t : tqdm) : tqdm :=
  {| bar_n := bar_n t + k; bar_total := bar_total t |}.

(** [_TqdmUpTo.update_to(b, bsize, tsize)], as [urlretrieve] calls it with
    the number of blocks so far, the size of a block and the total size. *)
Definition update_to (b bsize : Z) (tsize : option Z) (t : tqdm) : tqdm :=
  let t :=
    match tsize with
    | Some total => {| bar_n := bar_n t; bar_total := Some total |}
    | None => t
    end in
  update (b * bsize - bar_n t) t.

(** The bar after a sequence of calls of the hook. *)
Definition reported (reports : list (Z * Z * option Z)) (t : tqdm) : tqdm :=
  fold_left (fun t r => let '(b, bsize, tsize) := r in update_to b bsize tsize t)
            reports t.

(** ** Stand-ins for concrete runs *)

(** A stand-in for the native layer: the analyzer needs its dictionary
    directory on disk, the synthesizer echoes its configuration, and the
    optional package behaves as [imports] and [predictor] say. *)
Definition stub_native (imports : string -> option exn) (predictor : result unit) :
    Native := {|
  OpenJTalk := string;
  OpenJTalk_init d fs :=
    if bool_decide (is_Some (fs !! d)) then Ok d
    else Raise (Exn "RuntimeError" "Failed to initalize Mecab");
  OpenJTalk_g2p _ _ _ := Ok (PyStr "");
  OpenJTalk_run_frontend _ text := Ok (PyList [text]);
  OpenJTalk_make_label _ features := Ok (PyList [features]);
  HTSEngine_init v _ :=
    Ok {| voice := v; sampling_frequency := 48000; speed := 1; half_tone := 0 |};
  HTSEngine_synthesize h labels :=
    Ok (PyList [PyFloat (speed h); PyFloat (half_tone h); labels]);
  Predictor := unit;
  import_error := imports;
  Predictor_init := predictor;
  Predictor_predict _ x := Ok x;
  convert_njd_feature_to_marine_feature x := Ok x;
  merge_njd_marine_features a _ := Ok a
|}.

Definition installed : string -> option exn := fun _ => None.
Definition not_installed : string -> option exn :=
  fun _ => Some (ModuleNotFoundError "No module named 'marine'").
Definition converter_broken : string -> option exn :=
  fun m => if String.eqb m "marine.utils.openjtalk_util"
           then Some (ImportError "cannot import name")
           else None.

Definition plain : environ :=
  {| pkg_dir := "/site-packages/pyopenjtalk"; getenv_OPEN_JTALK_DICT_DIR := None |}.
Definition overridden : environ :=
  {| pkg_dir := "/site-packages/pyopenjtalk";
     getenv_OPEN_JTALK_DICT_DIR := Some "/opt/dict" |}.

Definition with_marine : Native := stub_native installed (Ok tt).
Definition without_marine : Native := stub_native not_installed (Ok tt).
Definition broken_model : Native :=
  stub_native installed (Raise (Exn "RuntimeError" "model file not found")).
Definition broken_converter : Native := stub_native converter_broken (Ok tt).

Definition empty_disk : gmap string node := ∅.
Definition disk_with (p : string) : gmap string node := {[ p := Directory ]}.

(** A native layer whose analyzer cannot load its dictionary, and the
    dictionary directory of the package in the environment [plain]. *)
Definition unusable_dictionary : Native := {|
  OpenJTalk := string;
  OpenJTalk_init _ _ := Raise (Exn "RuntimeError" "Failed to initalize Mecab");
  OpenJTalk_g2p _ _ _ := Ok (PyStr "");
  OpenJTalk_run_frontend _ text := Ok (PyList [text]);
  OpenJTalk_make_label _ features := Ok (PyList [features]);
  HTSEngine_init v _ :=
    Ok {| voice := v; sampling_frequency := 48000; speed := 1; half_tone := 0 |};
  HTSEngine_synthesize h labels :=
    Ok (PyList [PyFloat (speed h); PyFloat (half_tone h); labels]);
  Predictor := unit;
  import_error := installed;
  Predictor_init := Ok tt;
  Predictor_predict _ x := Ok x;
  convert_njd_feature_to_marine_feature x := Ok x;
  merge_njd_marine_features a _ := Ok a
|}.

Definition plain_dict : string :=
  "/site-packages/pyopenjtalk/open_jtalk_dic_utf_8-1.11".
Definition plain_tarball : string := "/site-packages/pyopenjtalk/dic.tar.gz".

Section Pyopenjtalk.

Context {N : Native} (E : environ).

(** ** The state of the process *)

Record state : Type := mkState {
  files : gmap string node;
  remote : list response;
  trace : list event;
  OPEN_JTALK_DICT_DIR : string;
  _global_jtalk : option OpenJTalk;
  _global_htsengine : option HTSEngine;
  _global_marine : option Predictor
}.

Definition set_files (f : gmap string node) (s : state) : state :=
  mkState f (remote s) (trace s) (OPEN_JTALK_DICT_DIR s)
          (_global_jtalk s) (_global_htsengine s) (_global_marine s).
Definition set_remote (r : list response) (s : state) : state :=
  mkState (files s) r (trace s) (OPEN_JTALK_DICT_DIR s)
          (_global_jtalk s) (_global_htsengine s) (_global_marine s).
Definition log (e : event) (s : state) : state :=
  mkState (files s) (remote s) (trace s ++ [e]) (OPEN_JTALK_DICT_DIR s)
          (_global_jtalk s) (_global_htsengine s) (_global_marine s).
Definition set_OPEN_JTALK_DICT_DIR (d : string) (s : state) : state :=
  mkState (files s) (remote s) (trace s) d
          (_global_jtalk s) (_global_htsengine s) (_global_marine s).
Definition set__global_jtalk (j : option OpenJTalk) (s : state) : state :=
  mkState (files s) (remote s) (trace s) (OPEN_JTALK_DICT_DIR s)
          j (_global_htsengine s) (_global_marine s).
Definition set__global_htsengine (h : option HTSEngine) (s : state) : state :=
  mkState (files s) (remote s) (trace s) (OPEN_JTALK_DICT_DIR s)
          (_global_jtalk s) h (_global_marine s).
Definition set__global_marine (p : option Predictor) (s : state) : state :=
  mkState (files s) (remote s) (trace s) (OPEN_JTALK_DICT_DIR s)
          (_global_jtalk s) (_global_htsengine s) p.

(** ** A state and exception monad *)

Definition M (A : Type) : Type := state -> result A * state.

Definition ret {A} (a : A) : M A := fun s => (Ok a, s).
Definition raise {A} (e : exn) : M A := fun s => (Raise e, s).
Definition bind {A B} (m : M A) (k : A -> M B) : M B :=
  fun s =>
    match m s with
    | (Ok a, s') => k a s'
    | (Raise e, s') => (Raise e, s')
    end.
Definition try_except {A} (m : M A) (handler : exn -> M A) : M A :=
  fun s =>
    match m s with
    | (Ok a, s') => (Ok a, s')
    | (Raise e, s') => handler e s'
    end.
Definition gets {A} (f : state -> A) : M A := fun s => (Ok (f s), s).
Definition modify (f : state -> state) : M unit := fun s => (Ok tt, f s).
Definition lift {A} (r : result A) : M A := fun s => (r, s).

Notation "x <- m ;; k" := (bind m (fun x => k))
  (at level 100, m at next level, right associativity).
Notation "m ;;; k" := (bind m (fun _ => k))
  (at level 100, right associativity).

(** ** Library calls *)

Definition print (line : string) : M unit := modify (log (Print line)).

(** [pkg_resources.resource_filename(__name__, name)] *)
Definition resource_filename (name : string) : string :=
  pkg_dir E +:+ "/" +:+ name.

(** [os.path.exists] *)
Definition path_exists (p : string) (s : state) : bool :=
  bool_decide (is_Some (files s !! p)).
Definition exists_ (p : string) : M bool := gets (path_exists p).

(** [urlretrieve(url, filename, reporthook=...)]: one request to the server;
    a server that no longer answers is unreachable. *)
Definition urlretrieve (url filename : string) : M unit :=
  fun s =>
    let s1 := log (Urlretrieve url filename) s in
    match remote s1 with
    | [] => (Raise (URLError "no route to host"), s1)
    | Unreachable e :: rest => (Raise e, set_remote rest s1)
    | Served a :: rest =>
        (Ok tt, set_files (<[filename := File (Some a)]> (files s1))
                          (set_remote rest s1))
    end.

(** Modelled from the spec: the remote archive is not part of the module; it
    is a gzip-compressed tar archive containing a dictionary directory tree,
    whose top-level directory carries the name of the archive. *)
Definition archive_root : string := "open_jtalk_dic_utf_8-1.11".

(** [with tarfile.open(filename, mode="r|gz") as f: f.extractall(path=path)] *)
Definition extractall (filename path : string) : M unit :=
  fun s =>
    let s1 := log (Extractall filename path) s in
    match files s1 !! filename with
    | Some (File (Some Dictionary)) =>
        (Ok tt, set_files (<[path +:+ archive_root := Directory]> (files s1)) s1)
    | Some (File (Some (Malformed e partial))) =>
        (Raise e,
         if partial
         then set_files (<[path +:+ archive_root := Directory]> (files s1)) s1
         else s1)
    | Some _ => (Raise (ReadError "not a gzip file"), s1)
    | None => (Raise (FileNotFoundError filename), s1)
    end.

(** [os.remove] *)
Definition os_remove (filename : string) : M unit :=
  fun s =>
    match files s !! filename with
    | Some _ => (Ok tt, set_files (delete filename (files s)) (log (Remove filename) s))
    | None => (Raise (FileNotFoundError filename), s)
    end.

(** [OpenJTalk(dn_mecab=d)] *)
Definition new_OpenJTalk (d : string) : M OpenJTalk :=
  fun s =>
    match OpenJTalk_init d (files s) with
    | Ok h => (Ok h, log (NewOpenJTalk d) s)
    | Raise e => (Raise e, s)
    end.

(** [HTSEngine(v)] *)
Definition new_HTSEngine (v : string) : M HTSEngine :=
  fun s =>
    match HTSEngine_init v (files s) with
    | Ok h => (Ok h, log (NewHTSEngine v) s)
    | Raise e => (Raise e, s)
    end.

(** [Predictor()] *)
Definition new_Predictor : M Predictor :=
  fun s =>
    match Predictor_init with
    | Ok p => (Ok p, log NewPredictor s)
    | Raise e => (Raise e, s)
    end.

(** [from <module> import ...] for a module of the optional package *)
Definition import_from (module : string) : M unit :=
  match import_error module with
  | Some e => raise e
  | None => ret tt
  end.

(** A method call on a global slot: on an empty slot Python finds no such
    attribute on [None]. *)
Definition method {H A} (slot : state -> option H) (name : string)
    (f : H -> result A) : M A :=
  fun s =>
    match slot s with
    | Some h => (f h, s)
    | None =>
        (Raise (AttributeError ("'NoneType' object has no attribute '" +:+ name +:+ "'")), s)
    end.

(** A call of a field-setting method on the cached synthesizer. *)
Definition hts_mutate (name : string) (f : HTSEngine -> HTSEngine) : M unit :=
  fun s =>
    match _global_htsengine s with
    | Some h => (Ok tt, set__global_htsengine (Some (f h)) s)
    | None =>
        (Raise (AttributeError ("'NoneType' object has no attribute '" +:+ name +:+ "'")), s)
    end.

(** ** The module *)

Definition _DICT_URL : string :=
  "https://github.com/r9y9/open_jtalk/releases/download/v1.11.1"
  +:+ "/open_jtalk_dic_utf_8-1.11.tar.gz".

Definition DEFAULT_HTS_VOICE : string :=
  resource_filename "htsvoice/mei_normal.htsvoice".

(** The state right after the module has been imported on the file system
    [fs], with the server behaving as [net] from then on. *)
Definition import_module (fs : gmap string node) (net : list response) : state :=
  {| files := fs;
     remote := net;
     trace := [];
     OPEN_JTALK_DICT_DIR :=
       default (resource_filename "open_jtalk_dic_utf_8-1.11")
               (getenv_OPEN_JTALK_DICT_DIR E);
     _global_jtalk := None;
     _global_htsengine := None;
     _global_marine := None |}.

Definition dquote : string := String (Ascii.ascii_of_nat 34) EmptyString.

Definition _extract_dic : M unit :=
  let filename := resource_filename "dic.tar.gz" in
  print ("Downloading: " +:+ dquote +:+ _DICT_URL +:+ dquote) ;;;
  urlretrieve _DICT_URL filename ;;;
  print ("Extracting tar file " +:+ filename) ;;;
  extractall filename (resource_filename "") ;;;
  modify (set_OPEN_JTALK_DICT_DIR (resource_filename "open_jtalk_dic_utf_8-1.11")) ;;;
  os_remove filename.

Definition _lazy_init : M unit :=
  d <- gets OPEN_JTALK_DICT_DIR ;;
  found <- exists_ d ;;
  if negb found then _extract_dic else ret tt.

Definition g2p (args : list pyval) (kwargs : list (string * pyval)) : M pyval :=
  j <- gets _global_jtalk ;;
  match j with
  | None =>
      _lazy_init ;;;
      d <- gets OPEN_JTALK_DICT_DIR ;;
      h <- new_OpenJTalk d ;;
      modify (set__global_jtalk (Some h))
  | Some _ => ret tt
  end ;;;
  method _global_jtalk "g2p" (fun h => OpenJTalk_g2p h args kwargs).

Definition install_marine : string :=
  "Please install marine by `pip install pyopenjtalk[marine]`".

Definition estimate_accent (njd_features : pyval) : M pyval :=
  m <- gets _global_marine ;;
  match m with
  | None =>
      try_except (import_from "marine.predict")
                 (fun _ => raise (ImportError install_marine)) ;;;
      p <- new_Predictor ;;
      modify (set__global_marine (Some p))
  | Some _ => ret tt
  end ;;;
  import_from "marine.utils.openjtalk_util" ;;;
  marine_feature <- lift (convert_njd_feature_to_marine_feature njd_features) ;;
  marine_results <-
    method _global_marine "predict"
           (fun p => Predictor_predict p (PyList [marine_feature])) ;;
  lift (merge_njd_marine_features njd_features marine_results).

Definition run_frontend (text : pyval) : M pyval :=
  j <- gets _global_jtalk ;;
  match j with
  | None =>
      _lazy_init ;;;
      d <- gets OPEN_JTALK_DICT_DIR ;;
      h <- new_OpenJTalk d ;;
      modify (set__global_jtalk (Some h))
  | Some _ => ret tt
  end ;;;
  method _global_jtalk "run_frontend" (fun h => OpenJTalk_run_frontend h text).

Definition make_label (njd_features : pyval) : M pyval :=
  j <- gets _global_jtalk ;;
  match j with
  | None =>
      _lazy_init ;;;
      d <- gets OPEN_JTALK_DICT_DIR ;;
      h <- new_OpenJTalk d ;;
      modify (set__global_jtalk (Some h))
  | Some _ => ret tt
  end ;;;
  method _global_jtalk "make_label" (fun h => OpenJTalk_make_label h njd_features).

Definition extract_fullcontext (text : pyval) (run_marine : bool) : M pyval :=
  njd_features <- run_frontend text ;;
  njd_features <-
    (if run_marine then estimate_accent njd_features else ret njd_features) ;;
  make_label njd_features.

Definition synthesize (labels : pyval) (speed half_tone : float) : M pyval :=
  let labels :=
    match labels with
    | PyTuple [_; second] => second
    | _ => labels
    end in
  g <- gets _global_htsengine ;;
  match g with
  | None =>
      h <- new_HTSEngine DEFAULT_HTS_VOICE ;;
      modify (set__global_htsengine (Some h))
  | Some _ => ret tt
  end ;;;
  sr <- method _global_htsengine "get_sampling_frequency"
               (fun h => Ok (get_sampling_frequency h)) ;;
  hts_mutate "set_speed" (set_speed speed) ;;;
  hts_mutate "add_half_tone" (add_half_tone half_tone) ;;;
  wav <- method _global_htsengine "synthesize"
                (fun h => HTSEngine_synthesize h labels) ;;
  ret (PyTuple [wav; PyInt sr]).

Definition tts (text : pyval) (speed half_tone : float) (run_marine : bool) : M pyval :=
  labels <- extract_fullcontext text run_marine ;;
  synthesize labels speed half_tone.

(** ** Sequential runs of the public entry points *)

Inductive call : Type :=
| Call_g2p (args : list pyval) (kwargs : list (string * pyval))
| Call_estimate_accent (njd_features : pyval)
| Call_extract_fullcontext (text : pyval) (run_marine : bool)
| Call_synthesize (labels : pyval) (speed half_tone : float)
| Call_tts (text : pyval) (speed half_tone : float) (run_marine : bool)
| Call_run_frontend (text : pyval)
| Call_make_label (njd_features : pyval).

Definition exec (c : call) : M pyval :=
  match c with
  | Call_g2p args kwargs => g2p args kwargs
  | Call_estimate_accent f => estimate_accent f
  | Call_extract_fullcontext text rm => extract_fullcontext text rm
  | Call_synthesize labels sp ht => synthesize labels sp ht
  | Call_tts text sp ht rm => tts text sp ht rm
  | Call_run_frontend text => run_frontend text
  | Call_make_label f => make_label f
  end.

(** The caller may catch what a call raises and go on: the state is threaded
    through the whole sequence. *)
Fixpoint run (cs : list call) (s : state) : state :=
  match cs with
  | [] => s
  | c :: cs' => run cs' (snd (exec c s))
  end.


(** * Notions used in the statements *)

(** How many requests for the archive, finished provisionings, constructed
    analyzers and constructed synthesizers a state has seen. *)
Definition downloads (s : state) : nat := count is_urlretrieve (trace s).
Definition removals (s : state) : nat := count is_remove (trace s).
Definition analyzers (s : state) : nat := count is_new_jtalk (trace s).
Definition synthesizers (s : state) : nat := count is_new_htsengine (trace s).

(** The guard shared by [g2p], [run_frontend] and [make_label]. *)
Definition load_jtalk : M unit :=
  j <- gets _global_jtalk ;;
  match j with
  | None =>
      _lazy_init ;;;
      d <- gets OPEN_JTALK_DICT_DIR ;;
      h <- new_OpenJTalk d ;;
      modify (set__global_jtalk (Some h))
  | Some _ => ret tt
  end.

(** The dictionary directory, as the global names it now, is on disk. *)
Definition dict_ok (s : state) : Prop :=
  path_exists (OPEN_JTALK_DICT_DIR s) s = true.

(** One for an empty slot: a construction may still come. *)
Definition free {A} (slot : option A) : nat :=
  match slot with Some _ => 0 | None => 1 end.

(** What holds between calls: a cached analyzer, and a finished provisioning,
    each mean that the dictionary directory is there. *)
Definition Inv (s : state) : Prop :=
  (is_Some (_global_jtalk s) -> dict_ok s) /\ (0 < removals s -> dict_ok s).

(** [Step s s']: what any piece of the module may do to the state. *)
Record Step (s s' : state) : Prop := {
  st_jtalk : forall h, _global_jtalk s = Some h -> _global_jtalk s' = Some h;
  st_analyzers :
    analyzers s' + free (_global_jtalk s') = analyzers s + free (_global_jtalk s);
  st_hts : forall h, _global_htsengine s = Some h ->
    exists h', _global_htsengine s' = Some h' /\ voice h' = voice h /\
               sampling_frequency h' = sampling_frequency h;
  st_synthesizers :
    synthesizers s' + free (_global_htsengine s')
    = synthesizers s + free (_global_htsengine s);
  st_marine : forall p, _global_marine s = Some p -> _global_marine s' = Some p;
  st_absent : is_Some (import_error "marine.predict") ->
    _global_marine s = None -> _global_marine s' = None;
  st_dict : dict_ok s ->
    dict_ok s' /\ downloads s' = downloads s /\
    OPEN_JTALK_DICT_DIR s' = OPEN_JTALK_DICT_DIR s;
  st_inv : Inv s -> Inv s'
}.

(** A computation every run of which is a [Step]. *)
Definition respects {A} (m : M A) : Prop := forall s, Step s (snd (m s)).

(** The guard of [synthesize]. *)
Definition load_htsengine : M unit :=
  g <- gets _global_htsengine ;;
  match g with
  | None =>
      h <- new_HTSEngine DEFAULT_HTS_VOICE ;;
      modify (set__global_htsengine (Some h))
  | Some _ => ret tt
  end.

(** The guard of [estimate_accent]. *)
Definition load_marine : M unit :=
  m <- gets _global_marine ;;
  match m with
  | None =>
      try_except (import_from "marine.predict")
                 (fun _ => raise (ImportError install_marine)) ;;;
      p <- new_Predictor ;;
      modify (set__global_marine (Some p))
  | Some _ => ret tt
  end.

(** The dictionary directory inside the package. *)
Definition packaged_dict : string := resource_filename "open_jtalk_dic_utf_8-1.11".

(** The entry points that reach the guard of the analyzer first. *)
Definition starts_with_analyzer (c : call) : bool :=
  match c with
  | Call_synthesize _ _ _ | Call_estimate_accent _ => false
  | _ => true
  end.

(** Computations that never send a request. *)
Definition quiet {A} (m : M A) : Prop :=
  forall s, downloads (snd (m s)) = downloads s.

(** [synthesize] from its guard on, with [labels] as the argument that the
    native method receives. *)
Definition forward (labels : pyval) (speed half_tone : float) : M pyval :=
  load_htsengine ;;;
  sr <- method _global_htsengine "get_sampling_frequency"
               (fun h => Ok (get_sampling_frequency h)) ;;
  hts_mutate "set_speed" (set_speed speed) ;;;
  hts_mutate "add_half_tone" (add_half_tone half_tone) ;;;
  wav <- method _global_htsengine "synthesize"
                (fun h => HTSEngine_synthesize h labels) ;;
  ret (PyTuple [wav; PyInt sr]).

(** The handle as one call of [synthesize] leaves it. *)
Definition configured (h : HTSEngine) (speed half_tone : float) : HTSEngine :=
  {| voice := voice h; sampling_frequency := sampling_frequency h;
     speed := speed; half_tone := half_tone |}.

(** The pair that [synthesize] returns from what the native method gave. *)
Definition returned (h : HTSEngine) (r : result pyval) : result pyval :=
  match r with
  | Ok wav => Ok (PyTuple [wav; PyInt (sampling_frequency h)])
  | Raise e => Raise e
  end.

(** [needle] occurs in [hay]. *)
Fixpoint contains (needle hay : string) : bool :=
  String.prefix needle hay ||
  match hay with
  | EmptyString => false
  | String _ rest => contains needle rest
  end.

(** The tar file that [_extract_dic] downloads to. *)
Definition tarball : string := resource_filename "dic.tar.gz".

Definition is_new_predictor (e : event) : bool :=
  match e with NewPredictor => true | _ => false end.

(** What is printed, requested, extracted or removed. *)
Definition is_io (e : event) : bool :=
  match e with
  | Print _ | Urlretrieve _ _ | Extractall _ _ | Remove _ => true
  | _ => false
  end.

Definition predictors (s : state) : nat := count is_new_predictor (trace s).
Definition io_events (s : state) : nat := count is_io (trace s).

(** A computation every run of which is in the relation [R]. *)
Definition keeps (R : state -> state -> Prop) {A} (m : M A) : Prop :=
  forall s, R s (snd (m s)).

(** The entry points that use the synthesizer. *)
Definition touches_synthesizer (c : call) : bool :=
  match c with
  | Call_synthesize _ _ _ | Call_tts _ _ _ _ => true
  | _ => false
  end.

(** The relations kept along a run. *)
Definition same_synthesizer (s s' : state) : Prop :=
  _global_htsengine s' = _global_htsengine s.

Definition predictor_once (s s' : state) : Prop :=
  predictors s' + free (_global_marine s') = predictors s + free (_global_marine s) /\
  (forall p, _global_marine s = Some p -> _global_marine s' = Some p).

Definition provisioned_once (s s' : state) : Prop :=
  Step s s' /\ (Inv s -> removals s <= 1 -> removals s' <= 1).

Definition offline (s s' : state) : Prop :=
  dict_ok s ->
  files s' = files s /\ remote s' = remote s /\
  OPEN_JTALK_DICT_DIR s' = OPEN_JTALK_DICT_DIR s /\ io_events s' = io_events s.

(** What [estimate_accent] computes with the predictor [p]. *)
Definition accent_pipeline (p : Predictor) (njd_features : pyval) : result pyval :=
  match convert_njd_feature_to_marine_feature njd_features with
  | Ok marine_feature =>
      match Predictor_predict p (PyList [marine_feature]) with
      | Ok marine_results => merge_njd_marine_features njd_features marine_results
      | Raise e => Raise e
      end
  | Raise e => Raise e
  end.

(** A computation that, once it has returned a value, returns that value
    again from every later state of the run, and leaves that state alone. *)
Definition settled {A} (m : M A) : Prop :=
  forall s v, fst (m s) = Ok v ->
  forall s', Step (snd (m s)) s' -> m s' = (Ok v, s').

(** * Properties *)

(** ** Counting events *)

Lemma count_app p t1 t2 : count p (t1 ++ t2) = count p t1 + count p t2.
Proof. induction t1 as [|e t1 IH]; simpl; [done | rewrite IH; lia]. Qed.

Lemma count_snoc p t e : count p (t ++ [e]) = count p t + (if p e then 1 else 0).
Proof. rewrite count_app. simpl. lia. Qed.

Ltac tally :=
  unfold downloads, removals, analyzers, synthesizers in *; simpl in *;
  rewrite ?count_snoc; simpl; solve [reflexivity | lia].

(** ** Paths *)

Lemma append_inj_l (p a b : string) : p +:+ a = p +:+ b -> a = b.
Proof. apply (inj (String.append p)). Qed.

Lemma append_assoc (p a b : string) : (p +:+ a) +:+ b = p +:+ a +:+ b.
Proof.
  induction p as [|c p IH]; [reflexivity |].
  change (String c ((p +:+ a) +:+ b) = String c (p +:+ a +:+ b)). by f_equal.
Qed.

Lemma extracted_root :
  resource_filename "" +:+ archive_root = resource_filename "open_jtalk_dic_utf_8-1.11".
Proof.
  unfold resource_filename.
  change (pkg_dir E +:+ "/" +:+ "") with (pkg_dir E +:+ "/").
  by rewrite append_assoc.
Qed.

Lemma tarball_not_root :
  resource_filename "open_jtalk_dic_utf_8-1.11" <> resource_filename "dic.tar.gz".
Proof. unfold resource_filename. intros H. apply append_inj_l in H. discriminate. Qed.

(** ** The monad *)

Lemma bind_assoc {A B C} (m : M A) (k : A -> M B) (k' : B -> M C) s :
  bind (bind m k) k' s = bind m (fun a => bind (k a) k') s.
Proof. unfold bind. destruct (m s) as [[a|e] s1]; reflexivity. Qed.

Lemma bind_ext {A B} (m : M A) (k k' : A -> M B) s :
  (forall a s', k a s' = k' a s') -> bind m k s = bind m k' s.
Proof. intros H. unfold bind. destruct (m s) as [[a|e] s1]; [apply H | reflexivity]. Qed.

Lemma bind_ret_l {A B} (a : A) (k : A -> M B) s : bind (ret a) k s = k a s.
Proof. reflexivity. Qed.

Lemma g2p_unfold args kwargs s :
  g2p args kwargs s =
  (load_jtalk ;;; method _global_jtalk "g2p" (fun h => OpenJTalk_g2p h args kwargs)) s.
Proof. reflexivity. Qed.

Lemma run_frontend_unfold text s :
  run_frontend text s =
  (load_jtalk ;;;
   method _global_jtalk "run_frontend" (fun h => OpenJTalk_run_frontend h text)) s.
Proof. reflexivity. Qed.

Lemma make_label_unfold f s :
  make_label f s =
  (load_jtalk ;;;
   method _global_jtalk "make_label" (fun h => OpenJTalk_make_label h f)) s.
Proof. reflexivity. Qed.

(** ** Provisioning *)

(** What [_extract_dic] leaves behind, whatever the server does. *)
Lemma extract_dic_effect s :
  let r := fst (_extract_dic s) in
  let s' := snd (_extract_dic s) in
  _global_jtalk s' = _global_jtalk s /\
  _global_htsengine s' = _global_htsengine s /\
  _global_marine s' = _global_marine s /\
  downloads s' = S (downloads s) /\
  analyzers s' = analyzers s /\
  synthesizers s' = synthesizers s /\
  match r with
  | Ok _ => dict_ok s' /\ removals s' = S (removals s)
  | Raise _ =>
      removals s' = removals s /\ OPEN_JTALK_DICT_DIR s' = OPEN_JTALK_DICT_DIR s
  end.
Proof.
  unfold _extract_dic, bind, print, modify, urlretrieve, extractall, os_remove.
  simpl.
  destruct (remote s) as [|[e|[|e partial]] rest]; simpl.
  - repeat split; tally.
  - repeat split; tally.
  - rewrite lookup_insert_eq. simpl.
    rewrite extracted_root.
    rewrite (lookup_insert_ne _ _ _ _ tarball_not_root), lookup_insert_eq.
    simpl. repeat split; try tally.
    unfold dict_ok, path_exists. simpl.
    rewrite (lookup_delete_ne _ _ _ (not_eq_sym tarball_not_root)), lookup_insert_eq.
    done.
  - rewrite lookup_insert_eq. simpl.
    destruct partial; simpl; repeat split; tally.
Qed.

(** ** One relation for every call *)

Lemma Step_refl s : Step s s.
Proof. split; eauto. Qed.

Lemma Step_trans s1 s2 s3 : Step s1 s2 -> Step s2 s3 -> Step s1 s3.
Proof.
  intros [J1 A1 H1 S1 M1 B1 D1 I1] [J2 A2 H2 S2 M2 B2 D2 I2]. split.
  - eauto.
  - lia.
  - intros h Hh. destruct (H1 h Hh) as (h1 & Hh1 & V1 & F1).
    destruct (H2 h1 Hh1) as (h2 & Hh2 & V2 & F2).
    exists h2. repeat split; congruence.
  - lia.
  - eauto.
  - eauto.
  - intros D. destruct (D1 D) as (D' & E1 & F1). destruct (D2 D') as (D'' & E2 & F2).
    split; [done | split; [lia | congruence]].
  - eauto.
Qed.

Lemma respects_bind {A B} (m : M A) (k : A -> M B) :
  respects m -> (forall a, respects (k a)) -> respects (bind m k).
Proof.
  intros Hm Hk s. unfold bind. specialize (Hm s).
  destruct (m s) as [[a|e] s1]; simpl in *; [|done].
  eapply Step_trans; [exact Hm | apply Hk].
Qed.

Lemma respects_ret {A} (a : A) : respects (ret a).
Proof. intros s. apply Step_refl. Qed.

Lemma respects_lift {A} (r : result A) : respects (lift r).
Proof. intros s. apply Step_refl. Qed.

Lemma respects_method {H A} (slot : state -> option H) name (f : H -> result A) :
  respects (method slot name f).
Proof. intros s. unfold method. destruct (slot s); apply Step_refl. Qed.

Lemma respects_import module : respects (import_from module).
Proof. intros s. unfold import_from. destruct (import_error module); apply Step_refl. Qed.

(** [_lazy_init]: nothing happens when the directory is there; otherwise one
    request is made, and a normal return means the directory is there. *)
Lemma lazy_init_effect s :
  let r := fst (_lazy_init s) in
  let s' := snd (_lazy_init s) in
  _global_jtalk s' = _global_jtalk s /\
  _global_htsengine s' = _global_htsengine s /\
  _global_marine s' = _global_marine s /\
  analyzers s' = analyzers s /\
  synthesizers s' = synthesizers s /\
  (dict_ok s -> s' = s) /\
  (~ dict_ok s -> downloads s' = S (downloads s)) /\
  match r with
  | Ok _ => dict_ok s'
  | Raise _ => ~ dict_ok s /\ removals s' = removals s /\
               OPEN_JTALK_DICT_DIR s' = OPEN_JTALK_DICT_DIR s
  end.
Proof.
  unfold _lazy_init, bind, gets, exists_. simpl. unfold dict_ok.
  destruct (path_exists (OPEN_JTALK_DICT_DIR s) s) eqn:Hd; simpl.
  - repeat split; try done.
  - pose proof (extract_dic_effect s) as HE. simpl in HE.
    destruct (_extract_dic s) as [[[]|e] s1]; simpl in *;
      destruct HE as (HJ & HH & HM & HD & HA & HS & HR & HR');
      repeat split; auto; discriminate.
Qed.

Lemma dict_ok_frame s s' :
  files s' = files s -> OPEN_JTALK_DICT_DIR s' = OPEN_JTALK_DICT_DIR s ->
  dict_ok s -> dict_ok s'.
Proof. unfold dict_ok, path_exists. by intros -> ->. Qed.

Lemma Inv_frame s s' :
  files s' = files s -> OPEN_JTALK_DICT_DIR s' = OPEN_JTALK_DICT_DIR s ->
  _global_jtalk s' = _global_jtalk s -> removals s' = removals s ->
  Inv s -> Inv s'.
Proof.
  intros Hf Hd Hj Hr [I1 I2]. unfold Inv. rewrite Hj, Hr.
  split; intros X; eapply dict_ok_frame; eauto.
Qed.

(** The guard: a normal return leaves a handle in the slot; with an empty
    slot and no directory, exactly one request is made. *)
Lemma load_jtalk_effect s :
  let r := fst (load_jtalk s) in
  let s' := snd (load_jtalk s) in
  Step s s' /\
  (forall u, r = Ok u -> is_Some (_global_jtalk s')) /\
  (_global_jtalk s = None -> ~ dict_ok s -> downloads s' = S (downloads s)) /\
  (is_Some (_global_jtalk s) -> s' = s).
Proof.
  unfold load_jtalk, bind, gets. simpl.
  destruct (_global_jtalk s) as [h|] eqn:Hj; simpl.
  { split; [apply Step_refl|]. split; [eauto|]. split; [discriminate|done]. }
  pose proof (lazy_init_effect s) as HL. simpl in HL.
  destruct (_lazy_init s) as [[[]|e] s1]; simpl in *;
    destruct HL as (HJ & HH & HM & HA & HS & Hsame & Hdl & HR).
  - unfold new_OpenJTalk.
    destruct (OpenJTalk_init (OPEN_JTALK_DICT_DIR s1) (files s1)) as [h|e]; simpl.
    + split; [split|]; simpl.
      * congruence.
      * rewrite Hj. tally.
      * rewrite HH. eauto.
      * rewrite HH. tally.
      * congruence.
      * congruence.
      * intros D. rewrite (Hsame D). split; [exact D | split; [tally | done]].
      * intros _. split; intros _; exact HR.
      * split; [eauto|]. split; [|intros [? ?]; discriminate].
        intros _ D. specialize (Hdl D). tally.
    + split; [split|]; simpl.
      * congruence.
      * rewrite HJ. tally.
      * rewrite HH. eauto.
      * rewrite HH. tally.
      * congruence.
      * congruence.
      * intros D. by rewrite (Hsame D).
      * intros _. split; intros _; exact HR.
      * split; [discriminate|]. split; [auto | intros [? ?]; discriminate].
  - destruct HR as (Hno & Hrm & Hdir). split; [split|]; simpl.
    + congruence.
    + rewrite HJ. tally.
    + rewrite HH. eauto.
    + rewrite HH. tally.
    + congruence.
    + congruence.
    + tauto.
    + intros [I1 I2]. split.
      * rewrite HJ, Hj. intros [? ?]. discriminate.
      * rewrite Hrm. tauto.
    + split; [discriminate|]. split; [auto | intros [? ?]; discriminate].
Qed.

Lemma respects_load_jtalk : respects load_jtalk.
Proof. intros s. apply load_jtalk_effect. Qed.

Lemma respects_g2p args kwargs : respects (g2p args kwargs).
Proof.
  intros s. rewrite g2p_unfold.
  apply respects_bind; [apply respects_load_jtalk | intros; apply respects_method].
Qed.

Lemma respects_run_frontend text : respects (run_frontend text).
Proof.
  intros s. rewrite run_frontend_unfold.
  apply respects_bind; [apply respects_load_jtalk | intros; apply respects_method].
Qed.

Lemma respects_make_label f : respects (make_label f).
Proof.
  intros s. rewrite make_label_unfold.
  apply respects_bind; [apply respects_load_jtalk | intros; apply respects_method].
Qed.

Lemma respects_load_htsengine : respects load_htsengine.
Proof.
  intros s. unfold load_htsengine, bind, gets. simpl.
  destruct (_global_htsengine s) as [h|] eqn:Hh; simpl; [apply Step_refl|].
  unfold new_HTSEngine.
  destruct (HTSEngine_init DEFAULT_HTS_VOICE (files s)) as [h|e]; simpl;
    [|apply Step_refl].
  split; simpl; try done.
  - tally.
  - congruence.
  - rewrite Hh. tally.
  - intros D. split; [exact D | split; [tally | done]].
  - apply Inv_frame; [done..|tally].
Qed.

Lemma respects_hts_mutate name f :
  (forall h, voice (f h) = voice h /\ sampling_frequency (f h) = sampling_frequency h) ->
  respects (hts_mutate name f).
Proof.
  intros Hf s. unfold hts_mutate.
  destruct (_global_htsengine s) as [h|] eqn:Hh; simpl; [|apply Step_refl].
  split; simpl; try done.
  - intros h0 Hh0. rewrite Hh in Hh0. injection Hh0 as <-.
    exists (f h). split; [done | apply Hf].
  - rewrite Hh. tally.
Qed.

Lemma synthesize_unfold labels sp ht s :
  synthesize labels sp ht s =
  (load_htsengine ;;;
   sr <- method _global_htsengine "get_sampling_frequency"
                (fun h => Ok (get_sampling_frequency h)) ;;
   hts_mutate "set_speed" (set_speed sp) ;;;
   hts_mutate "add_half_tone" (add_half_tone ht) ;;;
   wav <- method _global_htsengine "synthesize"
            (fun h => HTSEngine_synthesize h
               match labels with PyTuple [_; second] => second | _ => labels end) ;;
   ret (PyTuple [wav; PyInt sr])) s.
Proof. reflexivity. Qed.

Lemma respects_synthesize labels sp ht : respects (synthesize labels sp ht).
Proof.
  intros s. rewrite synthesize_unfold. revert s.
  apply respects_bind; [apply respects_load_htsengine | intros _].
  apply respects_bind; [apply respects_method | intros sr].
  apply respects_bind; [by apply respects_hts_mutate | intros _].
  apply respects_bind; [by apply respects_hts_mutate | intros _].
  apply respects_bind; [apply respects_method | intros wav].
  apply respects_ret.
Qed.

Lemma respects_load_marine : respects load_marine.
Proof.
  intros s. unfold load_marine, bind, gets, try_except, import_from. simpl.
  destruct (_global_marine s) as [p|] eqn:Hm; simpl; [apply Step_refl|].
  destruct (import_error "marine.predict") as [e|] eqn:Hi; simpl; [apply Step_refl|].
  unfold new_Predictor. destruct Predictor_init as [p|e]; simpl; [|apply Step_refl].
  split; simpl; try done.
  - tally.
  - eauto.
  - tally.
  - congruence.
  - rewrite Hi. intros [? ?]. discriminate.
  - intros D. split; [exact D | split; [tally | done]].
  - apply Inv_frame; [done..|tally].
Qed.

Lemma estimate_accent_unfold f s :
  estimate_accent f s =
  (load_marine ;;;
   import_from "marine.utils.openjtalk_util" ;;;
   marine_feature <- lift (convert_njd_feature_to_marine_feature f) ;;
   marine_results <-
     method _global_marine "predict"
            (fun p => Predictor_predict p (PyList [marine_feature])) ;;
   lift (merge_njd_marine_features f marine_results)) s.
Proof. reflexivity. Qed.

Lemma respects_estimate_accent f : respects (estimate_accent f).
Proof.
  intros s. rewrite estimate_accent_unfold. revert s.
  apply respects_bind; [apply respects_load_marine | intros _].
  apply respects_bind; [apply respects_import | intros _].
  apply respects_bind; [apply respects_lift | intros mf].
  apply respects_bind; [apply respects_method | intros mr].
  apply respects_lift.
Qed.

Lemma respects_extract_fullcontext text rm : respects (extract_fullcontext text rm).
Proof.
  unfold extract_fullcontext.
  apply respects_bind; [apply respects_run_frontend | intros f].
  apply respects_bind; [|apply respects_make_label].
  destruct rm; [apply respects_estimate_accent | apply respects_ret].
Qed.

Lemma respects_tts text sp ht rm : respects (tts text sp ht rm).
Proof.
  unfold tts.
  apply respects_bind; [apply respects_extract_fullcontext | intros l].
  apply respects_synthesize.
Qed.

Lemma respects_exec c : respects (exec c).
Proof.
  destruct c; simpl;
    auto using respects_g2p, respects_estimate_accent, respects_extract_fullcontext,
               respects_synthesize, respects_tts, respects_run_frontend,
               respects_make_label.
Qed.

Lemma Step_run cs s : Step s (run cs s).
Proof.
  revert s. induction cs as [|c cs IH]; intros s; simpl; [apply Step_refl|].
  eapply Step_trans; [apply respects_exec | apply IH].
Qed.

Lemma Inv_import fs net : Inv (import_module fs net).
Proof. split; simpl; [intros [? ?]; discriminate | unfold removals; simpl; lia]. Qed.

Lemma Inv_run cs fs net : Inv (run cs (import_module fs net)).
Proof. apply (st_inv _ _ (Step_run cs _)), Inv_import. Qed.

(** ** Where the dictionary ends up *)

Lemma extract_dic_default s u :
  fst (_extract_dic s) = Ok u ->
  OPEN_JTALK_DICT_DIR (snd (_extract_dic s)) = packaged_dict.
Proof.
  unfold _extract_dic, bind, print, modify, urlretrieve, extractall, os_remove.
  simpl.
  destruct (remote s) as [|[e|[|e partial]] rest]; simpl; try discriminate.
  - rewrite lookup_insert_eq. simpl. rewrite extracted_root.
    rewrite (lookup_insert_ne _ _ _ _ tarball_not_root), lookup_insert_eq.
    done.
  - rewrite lookup_insert_eq. simpl. discriminate.
Qed.

Lemma lazy_init_default s u :
  ~ dict_ok s -> fst (_lazy_init s) = Ok u ->
  OPEN_JTALK_DICT_DIR (snd (_lazy_init s)) = packaged_dict.
Proof.
  unfold _lazy_init, bind, gets, exists_, dict_ok. simpl.
  destruct (path_exists (OPEN_JTALK_DICT_DIR s) s); simpl; [done|].
  intros _. apply extract_dic_default.
Qed.

Lemma load_jtalk_default s :
  _global_jtalk s = None -> ~ dict_ok s ->
  is_Some (_global_jtalk (snd (load_jtalk s))) ->
  OPEN_JTALK_DICT_DIR (snd (load_jtalk s)) = packaged_dict.
Proof.
  intros Hj Hd. unfold load_jtalk, bind, gets. simpl.
  destruct (_global_jtalk s) eqn:Hj'; [discriminate|]. simpl.
  pose proof (lazy_init_default s) as HL.
  pose proof (lazy_init_effect s) as HE. simpl in HE.
  destruct (_lazy_init s) as [[[]|e] s1]; simpl in *.
  - specialize (HL tt Hd eq_refl). unfold new_OpenJTalk.
    destruct (OpenJTalk_init (OPEN_JTALK_DICT_DIR s1) (files s1)); simpl; auto.
  - destruct HE as (HJ & _). rewrite HJ, Hj'. intros [? ?]. discriminate.
Qed.

(** A call that goes through the guard and then only calls a method. *)
Lemma guarded_method_state {A} name (f : OpenJTalk -> result A) s :
  snd ((load_jtalk ;;; method _global_jtalk name f) s) = snd (load_jtalk s).
Proof.
  unfold bind, method. destruct (load_jtalk s) as [[[]|e] s1]; simpl; [|done].
  destruct (_global_jtalk s1); done.
Qed.

Lemma guarded_method_cached {A} name (f : OpenJTalk -> result A) s h :
  _global_jtalk s = Some h ->
  (load_jtalk ;;; method _global_jtalk name f) s = (f h, s).
Proof.
  intros Hj. unfold load_jtalk, bind, gets, method, ret. simpl. rewrite Hj. simpl.
  by rewrite Hj.
Qed.

Lemma guarded_method_ok {A} name (f : OpenJTalk -> result A) s a :
  fst ((load_jtalk ;;; method _global_jtalk name f) s) = Ok a ->
  exists h, _global_jtalk (snd (load_jtalk s)) = Some h /\ f h = Ok a.
Proof.
  unfold bind, method. destruct (load_jtalk s) as [[[]|e] s1]; simpl; [|done].
  destruct (_global_jtalk s1) as [h|]; simpl; [eauto | done].
Qed.

Lemma guarded_then {A B} name (f : OpenJTalk -> result A) (k : A -> M B) s :
  (forall a, respects (k a)) ->
  Inv s -> ~ dict_ok s ->
  downloads (snd (bind (load_jtalk ;;; method _global_jtalk name f) k s))
  = S (downloads s).
Proof.
  intros Hk HI Hd.
  destruct HI as [I1 I2].
  assert (Hj : _global_jtalk s = None).
  { destruct (_global_jtalk s) eqn:Hj; [|done]. exfalso. apply Hd, I1. eauto. }
  pose proof (load_jtalk_effect s) as (HS & Hok & Hdl & _).
  specialize (Hdl Hj Hd).
  pose proof (guarded_method_state name f s) as Hst.
  pose proof (guarded_method_ok name f s) as Hm.
  unfold bind at 1.
  destruct ((load_jtalk ;;; method _global_jtalk name f) s) as [[a|e] s1];
    simpl in *; subst s1; [|done].
  destruct (Hm a eq_refl) as (h & Hh & _).
  assert (D1 : dict_ok (snd (load_jtalk s))).
  { destruct (st_inv _ _ HS (conj I1 I2)) as [J1 _]. apply J1. rewrite Hh. eauto. }
  destruct (st_dict _ _ (Hk a (snd (load_jtalk s))) D1) as (_ & -> & _). done.
Qed.

Lemma exec_provisions_once c s :
  Inv s -> ~ dict_ok s -> starts_with_analyzer c = true ->
  downloads (snd (exec c s)) = S (downloads s).
Proof.
  intros HI Hd Hc.
  assert (Hj : _global_jtalk s = None).
  { destruct HI as [I1 _].
    destruct (_global_jtalk s) eqn:Hj; [|done]. exfalso. apply Hd, I1. eauto. }
  pose proof (load_jtalk_effect s) as (_ & _ & Hdl & _). specialize (Hdl Hj Hd).
  destruct c as [args kw|f|text rm|l sp ht|text sp ht rm|text|f]; simpl in *;
    try discriminate.
  - rewrite g2p_unfold, guarded_method_state. done.
  - unfold extract_fullcontext. apply guarded_then; [|done..].
    intros a. apply respects_bind; [|apply respects_make_label].
    destruct rm; [apply respects_estimate_accent | apply respects_ret].
  - unfold tts, extract_fullcontext. rewrite bind_assoc.
    apply guarded_then; [|done..].
    intros a. apply respects_bind; [|intros; apply respects_synthesize].
    apply respects_bind; [|apply respects_make_label].
    destruct rm; [apply respects_estimate_accent | apply respects_ret].
  - rewrite run_frontend_unfold, guarded_method_state. done.
  - rewrite make_label_unfold, guarded_method_state. done.
Qed.

Lemma quiet_bind {A B} (m : M A) (k : A -> M B) :
  quiet m -> (forall a, quiet (k a)) -> quiet (bind m k).
Proof.
  intros Hm Hk s. unfold bind. specialize (Hm s).
  destruct (m s) as [[a|e] s1]; simpl in *; [|done].
  by rewrite Hk.
Qed.

Lemma quiet_pure {A} (m : M A) : (forall s, snd (m s) = s) -> quiet m.
Proof. intros H s. by rewrite H. Qed.

Lemma quiet_method {H A} (slot : state -> option H) name (f : H -> result A) :
  quiet (method slot name f).
Proof. apply quiet_pure. intros s. unfold method. by destruct (slot s). Qed.

Lemma quiet_import module : quiet (import_from module).
Proof.
  apply quiet_pure. intros s. unfold import_from. by destruct (import_error module).
Qed.

Lemma quiet_hts_mutate name f : quiet (hts_mutate name f).
Proof. intros s. unfold hts_mutate. by destruct (_global_htsengine s). Qed.

Lemma quiet_load_htsengine : quiet load_htsengine.
Proof.
  intros s. unfold load_htsengine, bind, gets, new_HTSEngine. simpl.
  destruct (_global_htsengine s); simpl; [done|].
  destruct (HTSEngine_init _ _); simpl; [tally | done].
Qed.

Lemma quiet_load_marine : quiet load_marine.
Proof.
  intros s. unfold load_marine, bind, gets, try_except, import_from, new_Predictor.
  simpl.
  destruct (_global_marine s); simpl; [done|].
  destruct (import_error "marine.predict"); simpl; [done|].
  destruct Predictor_init; simpl; [tally | done].
Qed.

Lemma quiet_synthesize labels sp ht : quiet (synthesize labels sp ht).
Proof.
  intros s. rewrite synthesize_unfold. revert s.
  apply quiet_bind; [apply quiet_load_htsengine | intros _].
  apply quiet_bind; [apply quiet_method | intros sr].
  apply quiet_bind; [apply quiet_hts_mutate | intros _].
  apply quiet_bind; [apply quiet_hts_mutate | intros _].
  apply quiet_bind; [apply quiet_method | intros wav].
  by apply quiet_pure.
Qed.

Lemma quiet_estimate_accent f : quiet (estimate_accent f).
Proof.
  intros s. rewrite estimate_accent_unfold. revert s.
  apply quiet_bind; [apply quiet_load_marine | intros _].
  apply quiet_bind; [apply quiet_import | intros _].
  apply quiet_bind; [by apply quiet_pure | intros mf].
  apply quiet_bind; [apply quiet_method | intros mr].
  by apply quiet_pure.
Qed.

Lemma exec_never_provisions c s :
  starts_with_analyzer c = false -> downloads (snd (exec c s)) = downloads s.
Proof.
  destruct c as [args kw|f|text rm|l sp ht|text sp ht rm|text|f]; simpl;
    try discriminate; intros _.
  - apply quiet_estimate_accent.
  - apply quiet_synthesize.
Qed.

(** ** The synthesis facade *)

Lemma forward_cached labels sp ht s h :
  _global_htsengine s = Some h ->
  forward labels sp ht s =
  (returned h (HTSEngine_synthesize (configured h sp ht) labels),
   set__global_htsengine (Some (configured h sp ht)) s).
Proof.
  intros Hh. unfold forward, load_htsengine, bind, gets, method, hts_mutate, ret.
  unfold configured, returned, get_sampling_frequency, add_half_tone, set_speed.
  repeat (progress (rewrite ?Hh; simpl)).
  by destruct (HTSEngine_synthesize _ labels).
Qed.

Lemma forward_fresh labels sp ht s h :
  _global_htsengine s = None ->
  HTSEngine_init DEFAULT_HTS_VOICE (files s) = Ok h ->
  forward labels sp ht s =
  (returned h (HTSEngine_synthesize (configured h sp ht) labels),
   set__global_htsengine (Some (configured h sp ht))
     (log (NewHTSEngine DEFAULT_HTS_VOICE) s)).
Proof.
  intros Hh Hi.
  unfold forward, load_htsengine, new_HTSEngine, bind, gets, method, hts_mutate,
    modify, ret.
  unfold configured, returned, get_sampling_frequency, add_half_tone, set_speed.
  repeat (progress (rewrite ?Hh, ?Hi; simpl)).
  by destruct (HTSEngine_synthesize _ labels).
Qed.

Lemma forward_failed labels sp ht s e :
  _global_htsengine s = None ->
  HTSEngine_init DEFAULT_HTS_VOICE (files s) = Raise e ->
  forward labels sp ht s = (Raise e, s).
Proof.
  intros Hh Hi. unfold forward, load_htsengine, new_HTSEngine, bind, gets.
  simpl. rewrite Hh. simpl. by rewrite Hi.
Qed.

(** C2: for every label list [L], every speed and every half-tone value,
    [synthesize] called on a 2-tuple whose second element is [L] and
    [synthesize] called on the bare list [L] give the same output (the same
    waveform and sample rate, or the same exception): from one and the same
    state, where they also leave the same state behind, and when the one
    call follows the other. *)
Theorem synthesize_pair_as_bare_list
    (first : pyval) (L : list pyval) (speed half_tone : float) (s : state) :
  synthesize (PyTuple [first; PyList L]) speed half_tone s
  = synthesize (PyList L) speed half_tone s /\
  fst (synthesize (PyTuple [first; PyList L]) speed half_tone
         (snd (synthesize (PyList L) speed half_tone s)))
  = fst (synthesize (PyList L) speed half_tone s).
Proof.
  split; [reflexivity|].
  change (synthesize (PyTuple [first; PyList L]) speed half_tone)
    with (forward (PyList L) speed half_tone).
  change (synthesize (PyList L) speed half_tone)
    with (forward (PyList L) speed half_tone).
  destruct (_global_htsengine s) as [h|] eqn:Hh.
  - rewrite (forward_cached _ _ _ s h Hh). simpl.
    by rewrite (forward_cached _ _ _
                  (set__global_htsengine (Some (configured h speed half_tone)) s)
                  (configured h speed half_tone) eq_refl).
  - destruct (HTSEngine_init DEFAULT_HTS_VOICE (files s)) as [h|e] eqn:Hi.
    + rewrite (forward_fresh _ _ _ s h Hh Hi). simpl.
      by rewrite (forward_cached _ _ _
                    (set__global_htsengine (Some (configured h speed half_tone))
                       (log (NewHTSEngine DEFAULT_HTS_VOICE) s))
                    (configured h speed half_tone) eq_refl).
    + rewrite (forward_failed _ _ _ s e Hh Hi). simpl.
      by rewrite (forward_failed _ _ _ s e Hh Hi).
Qed.

(** C3: for every text, speed and half-tone value, [tts] with [run_marine]
    false is the composition of [run_frontend], [make_label] and
    [synthesize]: same result and same final state. *)
Theorem tts_without_marine_is_composition
    (text : pyval) (speed half_tone : float) (s : state) :
  tts text speed half_tone false s
  = (njd_features <- run_frontend text ;;
     labels <- make_label njd_features ;;
     synthesize labels speed half_tone) s.
Proof.
  unfold tts, extract_fullcontext. rewrite bind_assoc.
  apply bind_ext. intros njd_features s1. reflexivity.
Qed.

(** C9: [synthesize] replaces its first argument by the second element
    exactly when the argument is a tuple of two elements; every other
    argument, among them a tuple of another length and a list (whatever its
    second element), reaches the native method as it is. *)
Theorem synthesize_unwraps_pairs_only
    (labels : pyval) (speed half_tone : float) (s : state) :
  (forall a b, labels = PyTuple [a; b] ->
     synthesize labels speed half_tone s = forward b speed half_tone s) /\
  ((forall a b, labels <> PyTuple [a; b]) ->
     synthesize labels speed half_tone s = forward labels speed half_tone s) /\
  (forall items, labels = PyTuple items -> length items <> 2 ->
     synthesize labels speed half_tone s = forward labels speed half_tone s) /\
  (forall items, labels = PyList items ->
     synthesize labels speed half_tone s = forward labels speed half_tone s).
Proof.
  assert (Hne : (forall a b, labels <> PyTuple [a; b]) ->
     synthesize labels speed half_tone s = forward labels speed half_tone s).
  { intros H. destruct labels as [| | | | |l|l]; try reflexivity.
    destruct l as [|a [|b [|c l]]]; try reflexivity.
    destruct (H a b eq_refl). }
  split; [|split; [exact Hne|split]].
  - intros a b ->. reflexivity.
  - intros items -> Hlen. apply Hne. intros a b [= ->]. by apply Hlen.
  - intros items ->. reflexivity.
Qed.

(** C7: every call of [synthesize] that has a synthesizer (the cached one,
    or the one it constructs into the empty slot) hands the native method a
    handle whose speed and half-tone fields are the arguments of this call,
    with the voice and the sampling frequency untouched, and the state
    afterwards differs from the state before in that handle only (and in
    the record of the construction); without a synthesizer the call raises
    and changes nothing. *)
Theorem synthesize_sets_speed_and_half_tone
    (labels : pyval) (speed half_tone : float) (s : state) :
  let sent := match labels with PyTuple [_; second] => second | _ => labels end in
  match _global_htsengine s with
  | Some h =>
      synthesize labels speed half_tone s =
      (returned h (HTSEngine_synthesize (configured h speed half_tone) sent),
       set__global_htsengine (Some (configured h speed half_tone)) s)
  | None =>
      match HTSEngine_init DEFAULT_HTS_VOICE (files s) with
      | Ok h =>
          synthesize labels speed half_tone s =
          (returned h (HTSEngine_synthesize (configured h speed half_tone) sent),
           set__global_htsengine (Some (configured h speed half_tone))
             (log (NewHTSEngine DEFAULT_HTS_VOICE) s))
      | Raise e => synthesize labels speed half_tone s = (Raise e, s)
      end
  end.
Proof.
  intros sent.
  change (synthesize labels speed half_tone s) with (forward sent speed half_tone s).
  destruct (_global_htsengine s) as [h|] eqn:Hh.
  - by apply forward_cached.
  - destruct (HTSEngine_init DEFAULT_HTS_VOICE (files s)) as [h|e] eqn:Hi.
    + by apply forward_fresh.
    + by apply forward_failed.
Qed.

(** ** The singleton handles *)

(** C4: along any sequence of calls made after the import of the module, at
    most one analyzer and at most one synthesizer are ever constructed; and
    from the moment a slot holds a handle, every later call keeps that
    handle in the slot (the synthesizer with its voice and sampling
    frequency, only its two fields being set anew) and constructs no other. *)
Theorem handles_constructed_at_most_once
    (before later : list call) (fs : gmap string node) (net : list response) :
  let s := run before (import_module fs net) in
  let s' := run later s in
  analyzers s' <= 1 /\ synthesizers s' <= 1 /\
  (forall h, _global_jtalk s = Some h ->
     _global_jtalk s' = Some h /\ analyzers s' = analyzers s) /\
  (forall h, _global_htsengine s = Some h ->
     exists h', _global_htsengine s' = Some h' /\ voice h' = voice h /\
                sampling_frequency h' = sampling_frequency h /\
                synthesizers s' = synthesizers s).
Proof.
  intros s s'.
  pose proof (Step_run before (import_module fs net)) as S0.
  pose proof (Step_run later s) as S1. fold s in S0. fold s' in S1.
  pose proof (st_analyzers _ _ S0) as A0. pose proof (st_analyzers _ _ S1) as A1.
  pose proof (st_synthesizers _ _ S0) as B0.
  pose proof (st_synthesizers _ _ S1) as B1.
  change (analyzers (import_module fs net)) with 0 in A0.
  change (synthesizers (import_module fs net)) with 0 in B0.
  simpl in A0, B0.
  assert (F1 : forall A (o : option A), free o <= 1) by (intros A [x|]; simpl; lia).
  pose proof (F1 _ (_global_jtalk s)). pose proof (F1 _ (_global_htsengine s)).
  split; [lia|]. split; [lia|]. split.
  - intros h Hh. pose proof (st_jtalk _ _ S1 h Hh) as Hh'.
    split; [done|]. rewrite Hh, Hh' in A1. simpl in A1. lia.
  - intros h Hh. destruct (st_hts _ _ S1 h Hh) as (h' & Hh' & V & F).
    exists h'. repeat split; try done.
    rewrite Hh, Hh' in B1. simpl in B1. lia.
Qed.

(** ** The accent estimator *)

Lemma load_marine_import_fails s e :
  _global_marine s = None -> import_error "marine.predict" = Some e ->
  load_marine s = (Raise (ImportError install_marine), s).
Proof.
  intros Hm Hi. unfold load_marine, bind, gets, try_except, import_from, raise.
  simpl. rewrite Hm. simpl. by rewrite Hi.
Qed.

Lemma estimate_accent_import_fails f s e :
  _global_marine s = None -> import_error "marine.predict" = Some e ->
  estimate_accent f s = (Raise (ImportError install_marine), s).
Proof.
  intros Hm Hi. rewrite estimate_accent_unfold. unfold bind at 1.
  by rewrite (load_marine_import_fails s e).
Qed.

(** C6: when the optional package is not installed (importing the predictor
    raises a missing-module error), [estimate_accent], called at any point
    of any run, raises the error that carries the guidance message, not the
    error of the import; the message names the install command. *)
Theorem estimate_accent_without_marine
    (cs : list call) (fs : gmap string node) (net : list response)
    (njd_features : pyval) (msg : string) :
  import_error "marine.predict" = Some (ModuleNotFoundError msg) ->
  let s := run cs (import_module fs net) in
  estimate_accent njd_features s = (Raise (ImportError install_marine), s) /\
  ImportError install_marine <> ModuleNotFoundError msg /\
  contains "pip install pyopenjtalk[marine]" install_marine = true.
Proof.
  intros Hi s. split; [|split; [discriminate | reflexivity]].
  apply (estimate_accent_import_fails _ _ (ModuleNotFoundError msg)); [|done].
  apply (st_absent _ _ (Step_run cs (import_module fs net))); [|done].
  rewrite Hi. eauto.
Qed.

(** C10, as the code has it: in a call of [estimate_accent] that finds the
    slot of the predictor empty, whatever the import of the predictor class
    raises is replaced by the guidance error; what the construction of the
    predictor raises is outside the guard and reaches the caller as it is,
    and so does what the later import of the feature converter raises. *)
Theorem estimate_accent_guards_import_only (njd_features : pyval) (s : state) :
  _global_marine s = None ->
  (forall e, import_error "marine.predict" = Some e ->
     estimate_accent njd_features s = (Raise (ImportError install_marine), s)) /\
  (forall e, import_error "marine.predict" = None -> Predictor_init = Raise e ->
     estimate_accent njd_features s = (Raise e, s)) /\
  (forall p e, import_error "marine.predict" = None -> Predictor_init = Ok p ->
     import_error "marine.utils.openjtalk_util" = Some e ->
     estimate_accent njd_features s
     = (Raise e, set__global_marine (Some p) (log NewPredictor s))).
Proof.
  intros Hm. split; [|split].
  - intros e. by apply estimate_accent_import_fails.
  - intros e Hi Hp. rewrite estimate_accent_unfold.
    unfold load_marine, bind, gets, try_except, import_from, new_Predictor, ret.
    simpl. rewrite Hm. simpl. rewrite Hi. simpl. by rewrite Hp.
  - intros p e Hi Hp Hu. rewrite estimate_accent_unfold.
    unfold load_marine, bind, gets, try_except, import_from, new_Predictor, ret,
      modify, raise.
    simpl. rewrite Hm. simpl. rewrite Hi. simpl. rewrite Hp. simpl. by rewrite Hu.
Qed.

(** ** The label formatter *)

(** C8, as the code has it: with an analyzer in the slot, [make_label]
    returns what the native method of that handle returns on the features
    and leaves the state as it is, so it is a function of the features and
    of the handle; and after a call that returned, a second call on equal
    features returns the same labels and changes nothing.  (With an empty
    slot the call goes through the lazy initialisation first.) *)
Theorem make_label_pure_once_cached (njd_features : pyval) (s : state) :
  (forall h, _global_jtalk s = Some h ->
     make_label njd_features s = (OpenJTalk_make_label h njd_features, s)) /\
  (forall labels, fst (make_label njd_features s) = Ok labels ->
     let s1 := snd (make_label njd_features s) in
     make_label njd_features s1 = (Ok labels, s1)).
Proof.
  split.
  - intros h Hh. rewrite make_label_unfold.
    exact (guarded_method_cached "make_label"
             (fun h => OpenJTalk_make_label h njd_features) s h Hh).
  - intros labels Hok s1. subst s1. revert Hok.
    rewrite !make_label_unfold. intros Hok.
    destruct (guarded_method_ok _ _ _ _ Hok) as (h & Hh & Hf).
    rewrite guarded_method_state.
    rewrite (guarded_method_cached _ _ _ h Hh). by rewrite Hf.
Qed.

(** ** Provisioning along a run *)

Lemma Inv_empty_slot s : Inv s -> ~ dict_ok s -> _global_jtalk s = None.
Proof.
  intros [I1 _] Hd. destruct (_global_jtalk s) eqn:Hj; [|done].
  exfalso. apply Hd, I1. eauto.
Qed.

Lemma load_jtalk_dir s :
  Inv s -> ~ dict_ok s ->
  let s1 := snd (load_jtalk s) in
  is_Some (_global_jtalk s1) ->
  OPEN_JTALK_DICT_DIR s1 = packaged_dict /\ dict_ok s1.
Proof.
  intros HI Hd s1 Hs. split.
  - apply load_jtalk_default; auto using Inv_empty_slot.
  - pose proof (load_jtalk_effect s) as (HS & _).
    destruct (st_inv _ _ HS HI) as [J1 _]. by apply J1.
Qed.

Lemma guarded_then_dir {A B} name (f : OpenJTalk -> result A) (k : A -> M B) s :
  (forall a, respects (k a)) ->
  Inv s -> ~ dict_ok s ->
  let s' := snd (bind (load_jtalk ;;; method _global_jtalk name f) k s) in
  is_Some (_global_jtalk s') ->
  OPEN_JTALK_DICT_DIR s' = packaged_dict /\ dict_ok s'.
Proof.
  intros Hk HI Hd.
  pose proof (load_jtalk_dir s HI Hd) as Hdir. simpl in Hdir.
  pose proof (guarded_method_state name f s) as Hst.
  pose proof (guarded_method_ok name f s) as Hm.
  unfold bind at 1.
  destruct ((load_jtalk ;;; method _global_jtalk name f) s) as [[a|e] s1];
    simpl in *; subst s1; [|done].
  destruct (Hm a eq_refl) as (h & Hh & _).
  destruct Hdir as [Hp D1]; [rewrite Hh; eauto|].
  intros _.
  destruct (st_dict _ _ (Hk a (snd (load_jtalk s))) D1) as (D2 & _ & Hsame).
  split; [congruence | done].
Qed.

Lemma exec_dir c s :
  Inv s -> ~ dict_ok s -> starts_with_analyzer c = true ->
  let s' := snd (exec c s) in
  is_Some (_global_jtalk s') ->
  OPEN_JTALK_DICT_DIR s' = packaged_dict /\ dict_ok s'.
Proof.
  intros HI Hd Hc.
  pose proof (load_jtalk_dir s HI Hd) as Hdir. simpl in Hdir.
  destruct c as [args kw|f|text rm|l sp ht|text sp ht rm|text|f]; simpl in *;
    try discriminate.
  - rewrite g2p_unfold, guarded_method_state. done.
  - unfold extract_fullcontext. apply guarded_then_dir; [|done..].
    intros a. apply respects_bind; [|apply respects_make_label].
    destruct rm; [apply respects_estimate_accent | apply respects_ret].
  - unfold tts, extract_fullcontext. rewrite bind_assoc.
    apply guarded_then_dir; [|done..].
    intros a. apply respects_bind; [|intros; apply respects_synthesize].
    apply respects_bind; [|apply respects_make_label].
    destruct rm; [apply respects_estimate_accent | apply respects_ret].
  - rewrite run_frontend_unfold, guarded_method_state. done.
  - rewrite make_label_unfold, guarded_method_state. done.
Qed.

(** C1, as the code has it: with the environment variable set, no call of
    any run downloads the archive if the path it names exists, and the
    dictionary directory stays that path.  If the path does not exist the
    provisioning is not skipped: the first call that needs the analyzer
    sends one request, and if it ends with an analyzer in the slot, the
    dictionary directory has become the directory of the package, which
    exists. *)
Theorem override_skips_download_only_when_present
    (p : string) (fs : gmap string node) (net : list response) :
  getenv_OPEN_JTALK_DICT_DIR E = Some p ->
  let s0 := import_module fs net in
  (is_Some (fs !! p) ->
     forall cs, downloads (run cs s0) = 0 /\ OPEN_JTALK_DICT_DIR (run cs s0) = p) /\
  (fs !! p = None ->
     forall c, starts_with_analyzer c = true ->
       let s' := snd (exec c s0) in
       downloads s' = 1 /\
       (is_Some (_global_jtalk s') ->
          OPEN_JTALK_DICT_DIR s' = packaged_dict /\ dict_ok s')).
Proof.
  intros Henv s0.
  assert (Hdir : OPEN_JTALK_DICT_DIR s0 = p) by (simpl; by rewrite Henv).
  split.
  - intros Hp cs.
    assert (D : dict_ok s0).
    { unfold dict_ok, path_exists. rewrite Hdir. simpl. by apply bool_decide_eq_true. }
    destruct (st_dict _ _ (Step_run cs s0) D) as (_ & Hd & Hsame).
    split; [exact Hd | congruence].
  - intros Hp c Hc s'.
    assert (D : ~ dict_ok s0).
    { unfold dict_ok, path_exists. rewrite Hdir. simpl. rewrite Hp.
      rewrite bool_decide_eq_true. intros [? ?]. discriminate. }
    split.
    + apply (exec_provisions_once c s0 (Inv_import fs net) D Hc).
    + apply (exec_dir c s0 (Inv_import fs net) D Hc).
Qed.

(** C5, as the code has it: at any point of any run where the dictionary
    directory does not exist, a call of [g2p], [run_frontend], [make_label],
    [extract_fullcontext] or [tts] sends exactly one request for the
    archive, and a call of [synthesize] or [estimate_accent] sends none;
    and once a provisioning has run to its end, no later call sends a
    request. *)
Theorem provisioning_attempts
    (cs : list call) (c : call) (fs : gmap string node) (net : list response) :
  let s := run cs (import_module fs net) in
  (~ dict_ok s ->
     downloads (snd (exec c s))
     = downloads s + (if starts_with_analyzer c then 1 else 0)) /\
  (0 < removals s -> forall later, downloads (run later s) = downloads s).
Proof.
  intros s. pose proof (Inv_run cs fs net) as HI. fold s in HI. split.
  - intros D. destruct (starts_with_analyzer c) eqn:Hc.
    + rewrite (exec_provisions_once c s HI D Hc). lia.
    + rewrite (exec_never_provisions c s Hc). lia.
  - intros Hr later. destruct HI as [_ I2].
    by destruct (st_dict _ _ (Step_run later s) (I2 Hr)) as (_ & -> & _).
Qed.

(** ** What one provisioning does *)

Ltac run_extract_dic :=
  unfold _extract_dic, bind, print, modify, urlretrieve, extractall, os_remove;
  simpl.


Lemma extract_dic_unreachable s e rest :
  remote s = Unreachable e :: rest ->
  fst (_extract_dic s) = Raise e /\
  files (snd (_extract_dic s)) = files s /\
  OPEN_JTALK_DICT_DIR (snd (_extract_dic s)) = OPEN_JTALK_DICT_DIR s /\
  io_events (snd (_extract_dic s)) = 2 + io_events s.
Proof.
  intros Hr. run_extract_dic. rewrite Hr. simpl.
  repeat split. unfold io_events. simpl. rewrite !count_snoc. simpl. lia.
Qed.

Lemma extract_dic_malformed s e partial rest :
  remote s = Served (Malformed e partial) :: rest ->
  fst (_extract_dic s) = Raise e /\
  files (snd (_extract_dic s))
  = (if partial
     then <[packaged_dict := Directory]>
            (<[tarball := File (Some (Malformed e partial))]> (files s))
     else <[tarball := File (Some (Malformed e partial))]> (files s)) /\
  OPEN_JTALK_DICT_DIR (snd (_extract_dic s)) = OPEN_JTALK_DICT_DIR s /\
  _global_jtalk (snd (_extract_dic s)) = _global_jtalk s.
Proof.
  intros Hr. run_extract_dic. rewrite Hr. simpl.
  rewrite lookup_insert_eq. simpl. rewrite extracted_root.
  by destruct partial.
Qed.


(** X2: a provisioning that fails never rebinds the dictionary directory.
    When the server cannot be reached nothing on disk changes; when the
    archive is served but its extraction raises, the downloaded tar file
    stays on disk (it is removed only at the end of a provisioning that went
    through) and the error of the extraction reaches the caller. *)
Theorem provisioning_failure (s : state) (e : exn) :
  (forall rest, remote s = Unreachable e :: rest ->
     fst (_extract_dic s) = Raise e /\
     files (snd (_extract_dic s)) = files s /\
     OPEN_JTALK_DICT_DIR (snd (_extract_dic s)) = OPEN_JTALK_DICT_DIR s) /\
  (forall partial rest, remote s = Served (Malformed e partial) :: rest ->
     fst (_extract_dic s) = Raise e /\
     files (snd (_extract_dic s)) !! tarball
       = Some (File (Some (Malformed e partial))) /\
     OPEN_JTALK_DICT_DIR (snd (_extract_dic s)) = OPEN_JTALK_DICT_DIR s /\
     removals (snd (_extract_dic s)) = removals s).
Proof.
  split.
  - intros rest Hr. destruct (extract_dic_unreachable s e rest Hr) as (?&?&?&_).
    done.
  - intros partial rest Hr.
    destruct (extract_dic_malformed s e partial rest Hr) as (Hf & Hfs & Hd & _).
    pose proof (extract_dic_effect s) as HE. simpl in HE. rewrite Hf in HE.
    destruct HE as (_ & _ & _ & _ & _ & _ & Hrm & _).
    repeat split; try done.
    rewrite Hfs. destruct partial.
    + rewrite (lookup_insert_ne _ _ _ _ tarball_not_root). apply lookup_insert_eq.
    + apply lookup_insert_eq.
Qed.

Lemma lazy_init_missing s :
  ~ dict_ok s -> _lazy_init s = _extract_dic s.
Proof.
  unfold dict_ok, _lazy_init, bind, gets, exists_. simpl.
  destruct (path_exists (OPEN_JTALK_DICT_DIR s) s); simpl; [done|].
  intros _. by destruct (_extract_dic s).
Qed.

Lemma load_jtalk_raises s e s1 :
  _global_jtalk s = None -> _lazy_init s = (Raise e, s1) ->
  load_jtalk s = (Raise e, s1).
Proof.
  intros Hj Hl. unfold load_jtalk, bind, gets. simpl. rewrite Hj. simpl.
  by rewrite Hl.
Qed.

Lemma guarded_raises {A} name (f : OpenJTalk -> result A) s e s1 :
  load_jtalk s = (Raise e, s1) ->
  (load_jtalk ;;; method _global_jtalk name f) s = (Raise e, s1).
Proof. intros H. unfold bind. by rewrite H. Qed.

(** X3: [_lazy_init] looks only at whether the directory exists.  When the
    extraction of the archive raises after it has created the directory of
    the package, the call raises that error, the slot of the analyzer stays
    empty, but the directory now counts as present: no later call of any
    run requests the archive again. *)
Theorem partial_extraction_blocks_provisioning
    (s : state) (e : exn) (rest : list response) (text : pyval) :
  _global_jtalk s = None ->
  OPEN_JTALK_DICT_DIR s = packaged_dict ->
  files s !! packaged_dict = None ->
  remote s = Served (Malformed e true) :: rest ->
  let s' := snd (run_frontend text s) in
  fst (run_frontend text s) = Raise e /\
  _global_jtalk s' = None /\
  dict_ok s' /\
  (forall later, downloads (run later s') = downloads s').
Proof.
  intros Hj Hd Hf Hr s'.
  assert (Hno : ~ dict_ok s).
  { unfold dict_ok, path_exists. rewrite Hd, Hf.
    rewrite bool_decide_eq_true. intros [? ?]. discriminate. }
  destruct (extract_dic_malformed s e true rest Hr) as (H1 & H2 & H3 & H4).
  assert (Hl : load_jtalk s = (Raise e, snd (_extract_dic s))).
  { apply load_jtalk_raises; [done|]. rewrite (lazy_init_missing s Hno).
    destruct (_extract_dic s) as [r s1]. simpl in *. by subst r. }
  assert (Hrun : run_frontend text s = (Raise e, snd (_extract_dic s))).
  { rewrite run_frontend_unfold. by apply guarded_raises. }
  subst s'. rewrite Hrun. simpl.
  assert (D : dict_ok (snd (_extract_dic s))).
  { unfold dict_ok, path_exists. rewrite H3, Hd, H2, lookup_insert_eq.
    by apply bool_decide_eq_true. }
  repeat split; try done.
  - congruence.
  - intros later. by destruct (st_dict _ _ (Step_run later _) D) as (_ & -> & _).
Qed.

(** ** The analyzer across calls *)

Lemma bind_raises {A B} (m : M A) (k : A -> M B) s e s1 :
  m s = (Raise e, s1) -> bind m k s = (Raise e, s1).
Proof. intros H. unfold bind. by rewrite H. Qed.

Lemma bind_returns {A B} (m : M A) (k : A -> M B) s a s1 :
  m s = (Ok a, s1) -> bind m k s = k a s1.
Proof. intros H. unfold bind. by rewrite H. Qed.

Lemma bind_ok_inv {A B} (m : M A) (k : A -> M B) s v :
  fst (bind m k s) = Ok v ->
  exists a, fst (m s) = Ok a /\ bind m k s = k a (snd (m s)).
Proof.
  unfold bind. destruct (m s) as [[a|e] s1]; simpl; [eauto | discriminate].
Qed.

Lemma load_jtalk_construction_fails s e :
  _global_jtalk s = None -> dict_ok s ->
  OpenJTalk_init (OPEN_JTALK_DICT_DIR s) (files s) = Raise e ->
  load_jtalk s = (Raise e, s).
Proof.
  intros Hj D Hi.
  unfold load_jtalk, _lazy_init, bind, gets, exists_, new_OpenJTalk, ret. simpl.
  rewrite Hj. simpl. unfold dict_ok in D. rewrite D. simpl. by rewrite Hi.
Qed.

(** X4: a failed construction of the analyzer is not remembered.  With the
    dictionary directory on disk and an empty slot, if the constructor
    raises, each of [g2p], [run_frontend], [make_label],
    [extract_fullcontext] and [tts] raises that same error and leaves the
    whole state as it was, so the next call tries the construction again. *)
Theorem failed_construction_leaves_no_trace (c : call) (s : state) (e : exn) :
  starts_with_analyzer c = true ->
  _global_jtalk s = None ->
  dict_ok s ->
  OpenJTalk_init (OPEN_JTALK_DICT_DIR s) (files s) = Raise e ->
  exec c s = (Raise e, s).
Proof.
  intros Hc Hj D Hi.
  pose proof (load_jtalk_construction_fails s e Hj D Hi) as Hl.
  destruct c as [args kw|f|text rm|l sp ht|text sp ht rm|text|f]; simpl in *;
    try discriminate.
  - rewrite g2p_unfold. by apply guarded_raises.
  - unfold extract_fullcontext. apply bind_raises.
    rewrite run_frontend_unfold. by apply guarded_raises.
  - unfold tts, extract_fullcontext. rewrite bind_assoc. apply bind_raises.
    rewrite run_frontend_unfold. by apply guarded_raises.
  - rewrite run_frontend_unfold. by apply guarded_raises.
  - rewrite make_label_unfold. by apply guarded_raises.
Qed.

Lemma guarded_then_cached {A B} name (f : OpenJTalk -> result A) (k : A -> M B) s v :
  (forall a, respects (k a)) ->
  fst (bind (load_jtalk ;;; method _global_jtalk name f) k s) = Ok v ->
  is_Some (_global_jtalk (snd (bind (load_jtalk ;;; method _global_jtalk name f) k s))).
Proof.
  intros Hk Hok. destruct (bind_ok_inv _ _ _ _ Hok) as (a & Ha & Heq).
  rewrite Heq. destruct (guarded_method_ok _ _ _ _ Ha) as (h & Hh & _).
  rewrite guarded_method_state.
  rewrite (st_jtalk _ _ (Hk a (snd (load_jtalk s))) h Hh). eauto.
Qed.

Lemma analyzer_cached_after c s v :
  starts_with_analyzer c = true -> fst (exec c s) = Ok v ->
  is_Some (_global_jtalk (snd (exec c s))).
Proof.
  intros Hc.
  destruct c as [args kw|f|text rm|l sp ht|text sp ht rm|text|f]; simpl in *;
    try discriminate.
  - rewrite g2p_unfold. intros Hok.
    destruct (guarded_method_ok _ _ _ _ Hok) as (h & Hh & _).
    rewrite guarded_method_state, Hh. eauto.
  - unfold extract_fullcontext. apply guarded_then_cached.
    intros a. apply respects_bind; [|apply respects_make_label].
    destruct rm; [apply respects_estimate_accent | apply respects_ret].
  - unfold tts, extract_fullcontext. rewrite bind_assoc.
    apply guarded_then_cached.
    intros a. apply respects_bind; [|intros; apply respects_synthesize].
    apply respects_bind; [|apply respects_make_label].
    destruct rm; [apply respects_estimate_accent | apply respects_ret].
  - rewrite run_frontend_unfold. intros Hok.
    destruct (guarded_method_ok _ _ _ _ Hok) as (h & Hh & _).
    rewrite guarded_method_state, Hh. eauto.
  - rewrite make_label_unfold. intros Hok.
    destruct (guarded_method_ok _ _ _ _ Hok) as (h & Hh & _).
    rewrite guarded_method_state, Hh. eauto.
Qed.

(** X5: [g2p], [run_frontend] and [make_label] work on one shared handle.
    After any call of [g2p], [run_frontend], [make_label],
    [extract_fullcontext] or [tts] that returned, the slot holds a handle,
    and each of the three functions returns what the native method of that
    handle returns (a value or an exception) without changing the state. *)
Theorem analyzer_functions_share_one_handle (c : call) (s : state) (v : pyval) :
  starts_with_analyzer c = true ->
  fst (exec c s) = Ok v ->
  let s1 := snd (exec c s) in
  exists h, _global_jtalk s1 = Some h /\
    (forall args kwargs, g2p args kwargs s1 = (OpenJTalk_g2p h args kwargs, s1)) /\
    (forall text, run_frontend text s1 = (OpenJTalk_run_frontend h text, s1)) /\
    (forall f, make_label f s1 = (OpenJTalk_make_label h f, s1)).
Proof.
  intros Hc Hok s1. destruct (analyzer_cached_after c s v Hc Hok) as [h Hh].
  fold s1 in Hh. exists h. split; [done|]. split; [|split].
  - intros args kwargs. rewrite g2p_unfold.
    exact (guarded_method_cached "g2p" (fun h => OpenJTalk_g2p h args kwargs) s1 h Hh).
  - intros text. rewrite run_frontend_unfold.
    exact (guarded_method_cached "run_frontend"
             (fun h => OpenJTalk_run_frontend h text) s1 h Hh).
  - intros f. rewrite make_label_unfold.
    exact (guarded_method_cached "make_label"
             (fun h => OpenJTalk_make_label h f) s1 h Hh).
Qed.

(** ** Relations kept along a run *)

Section Keeps.

Context (R : state -> state -> Prop) `{!PreOrder R}.

Lemma keeps_bind {A B} (m : M A) (k : A -> M B) :
  keeps R m -> (forall a, keeps R (k a)) -> keeps R (bind m k).
Proof.
  intros Hm Hk s. unfold bind. specialize (Hm s).
  destruct (m s) as [[a|e] s1]; simpl in *; [|done].
  etrans; [exact Hm | apply Hk].
Qed.

Lemma keeps_pure {A} (m : M A) : (forall s, snd (m s) = s) -> keeps R m.
Proof. intros H s. by rewrite H. Qed.

Lemma keeps_method {H A} (slot : state -> option H) name (f : H -> result A) :
  keeps R (method slot name f).
Proof. apply keeps_pure. intros s. unfold method. by destruct (slot s). Qed.

Lemma keeps_import module : keeps R (import_from module).
Proof.
  apply keeps_pure. intros s. unfold import_from. by destruct (import_error module).
Qed.

Lemma keeps_guarded {A} name (f : OpenJTalk -> result A) :
  keeps R load_jtalk -> keeps R (load_jtalk ;;; method _global_jtalk name f).
Proof. intros H. apply keeps_bind; [done | intros; apply keeps_method]. Qed.

Lemma keeps_estimate_accent f :
  keeps R load_marine -> keeps R (estimate_accent f).
Proof.
  intros H s. rewrite estimate_accent_unfold. revert s.
  apply keeps_bind; [done | intros _].
  apply keeps_bind; [apply keeps_import | intros _].
  apply keeps_bind; [by apply keeps_pure | intros mf].
  apply keeps_bind; [apply keeps_method | intros mr].
  by apply keeps_pure.
Qed.

Lemma keeps_extract_fullcontext text rm :
  keeps R load_jtalk -> keeps R load_marine ->
  keeps R (extract_fullcontext text rm).
Proof.
  intros HJ HM. unfold extract_fullcontext.
  apply keeps_bind.
  { intros s. rewrite run_frontend_unfold. by apply keeps_guarded. }
  intros f. apply keeps_bind.
  { destruct rm; [by apply keeps_estimate_accent | by apply keeps_pure]. }
  intros f' s. rewrite make_label_unfold. by apply keeps_guarded.
Qed.

Lemma keeps_synthesize labels sp ht :
  keeps R load_htsengine ->
  (forall name, keeps R (hts_mutate name (set_speed sp))) ->
  (forall name, keeps R (hts_mutate name (add_half_tone ht))) ->
  keeps R (synthesize labels sp ht).
Proof.
  intros HL HS HT s. rewrite synthesize_unfold. revert s.
  apply keeps_bind; [done | intros _].
  apply keeps_bind; [apply keeps_method | intros sr].
  apply keeps_bind; [apply HS | intros _].
  apply keeps_bind; [apply HT | intros _].
  apply keeps_bind; [apply keeps_method | intros wav].
  by apply keeps_pure.
Qed.

(** The calls that stay away from the synthesizer. *)
Lemma keeps_exec_analysis c :
  keeps R load_jtalk -> keeps R load_marine ->
  touches_synthesizer c = false -> keeps R (exec c).
Proof.
  intros HJ HM.
  destruct c as [args kw|f|text rm|l sp ht|text sp ht rm|text|f]; simpl;
    try discriminate; intros _.
  - intros s. rewrite g2p_unfold. by apply keeps_guarded.
  - by apply keeps_estimate_accent.
  - by apply keeps_extract_fullcontext.
  - intros s. rewrite run_frontend_unfold. by apply keeps_guarded.
  - intros s. rewrite make_label_unfold. by apply keeps_guarded.
Qed.

Lemma keeps_exec c :
  keeps R load_jtalk -> keeps R load_marine -> keeps R load_htsengine ->
  (forall name x, keeps R (hts_mutate name (set_speed x))) ->
  (forall name x, keeps R (hts_mutate name (add_half_tone x))) ->
  keeps R (exec c).
Proof.
  intros HJ HM HL HS HT.
  destruct (touches_synthesizer c) eqn:Hc; [|by apply keeps_exec_analysis].
  destruct c as [args kw|f|text rm|l sp ht|text sp ht rm|text|f]; simpl in *;
    try discriminate.
  - apply keeps_synthesize; auto.
  - unfold tts. apply keeps_bind; [by apply keeps_extract_fullcontext|].
    intros l. apply keeps_synthesize; auto.
Qed.

Lemma keeps_run cs :
  (forall c, In c cs -> keeps R (exec c)) -> forall s, R s (run cs s).
Proof.
  induction cs as [|c cs IH]; intros H s; simpl; [reflexivity|].
  etrans; [apply (H c); by left | apply IH; intros c' Hc'; apply H; by right].
Qed.

End Keeps.

Ltac tally_more :=
  unfold predictors, io_events, removals in *; simpl in *;
  rewrite ?count_snoc; simpl; solve [reflexivity | lia].

Lemma extract_dic_frame s :
  _global_htsengine (snd (_extract_dic s)) = _global_htsengine s /\
  _global_marine (snd (_extract_dic s)) = _global_marine s /\
  predictors (snd (_extract_dic s)) = predictors s.
Proof.
  run_extract_dic.
  destruct (remote s) as [|[e|[|e partial]] rest]; simpl.
  - repeat split; tally_more.
  - repeat split; tally_more.
  - rewrite lookup_insert_eq. simpl. rewrite extracted_root.
    rewrite (lookup_insert_ne _ _ _ _ tarball_not_root), lookup_insert_eq.
    simpl. repeat split; tally_more.
  - rewrite lookup_insert_eq. simpl.
    destruct partial; simpl; repeat split; tally_more.
Qed.

Lemma load_jtalk_frame s :
  _global_htsengine (snd (load_jtalk s)) = _global_htsengine s /\
  _global_marine (snd (load_jtalk s)) = _global_marine s /\
  predictors (snd (load_jtalk s)) = predictors s.
Proof.
  unfold load_jtalk, _lazy_init, bind, gets, exists_, new_OpenJTalk, ret. simpl.
  destruct (_global_jtalk s); simpl; [done|].
  destruct (path_exists (OPEN_JTALK_DICT_DIR s) s); simpl.
  - destruct (OpenJTalk_init _ _); simpl; repeat split; tally_more.
  - pose proof (extract_dic_frame s) as (H1 & H2 & H3).
    destruct (_extract_dic s) as [[[]|e] s1]; simpl in *; [|done].
    destruct (OpenJTalk_init _ _); simpl; repeat split; try done; tally_more.
Qed.

Lemma load_marine_frame s :
  _global_htsengine (snd (load_marine s)) = _global_htsengine s /\
  files (snd (load_marine s)) = files s /\
  remote (snd (load_marine s)) = remote s /\
  OPEN_JTALK_DICT_DIR (snd (load_marine s)) = OPEN_JTALK_DICT_DIR s /\
  io_events (snd (load_marine s)) = io_events s /\
  removals (snd (load_marine s)) = removals s.
Proof.
  unfold load_marine, bind, gets, try_except, import_from, new_Predictor. simpl.
  destruct (_global_marine s); simpl; [done|].
  destruct (import_error "marine.predict"); simpl; [done|].
  destruct Predictor_init; simpl; repeat split; tally_more.
Qed.

Lemma load_htsengine_frame s :
  _global_marine (snd (load_htsengine s)) = _global_marine s /\
  predictors (snd (load_htsengine s)) = predictors s /\
  files (snd (load_htsengine s)) = files s /\
  remote (snd (load_htsengine s)) = remote s /\
  OPEN_JTALK_DICT_DIR (snd (load_htsengine s)) = OPEN_JTALK_DICT_DIR s /\
  io_events (snd (load_htsengine s)) = io_events s /\
  removals (snd (load_htsengine s)) = removals s.
Proof.
  unfold load_htsengine, bind, gets, new_HTSEngine. simpl.
  destruct (_global_htsengine s); simpl; [done|].
  destruct (HTSEngine_init _ _); simpl; repeat split; tally_more.
Qed.

Lemma hts_mutate_frame name f s :
  _global_marine (snd (hts_mutate name f s)) = _global_marine s /\
  trace (snd (hts_mutate name f s)) = trace s /\
  files (snd (hts_mutate name f s)) = files s /\
  remote (snd (hts_mutate name f s)) = remote s /\
  OPEN_JTALK_DICT_DIR (snd (hts_mutate name f s)) = OPEN_JTALK_DICT_DIR s.
Proof. unfold hts_mutate. by destruct (_global_htsengine s). Qed.

(** *** The synthesizer is left alone by the other calls *)

#[local] Instance same_synthesizer_po : PreOrder same_synthesizer.
Proof. split; [done | intros s1 s2 s3; unfold same_synthesizer; congruence]. Qed.

Lemma same_synthesizer_run others s :
  (forall c, In c others -> touches_synthesizer c = false) ->
  _global_htsengine (run others s) = _global_htsengine s.
Proof.
  intros H. apply (keeps_run same_synthesizer). intros c Hc.
  apply keeps_exec_analysis; [apply _ | | | by apply H].
  - intros s0. apply load_jtalk_frame.
  - intros s0. apply load_marine_frame.
Qed.

(** X8: only [synthesize] and [tts] touch the synthesizer.  The speed and
    half tone that a call of [synthesize] sets stay on the cached handle,
    with its voice and sampling frequency, through any sequence of calls of
    [g2p], [run_frontend], [make_label], [estimate_accent] and
    [extract_fullcontext] that follows. *)
Theorem synthesizer_settings_persist
    (labels : pyval) (speed half_tone : float) (s : state) (h : HTSEngine)
    (others : list call) :
  _global_htsengine s = Some h \/
  (_global_htsengine s = None /\ HTSEngine_init DEFAULT_HTS_VOICE (files s) = Ok h) ->
  (forall c, In c others -> touches_synthesizer c = false) ->
  _global_htsengine (run others (snd (synthesize labels speed half_tone s)))
  = Some (configured h speed half_tone).
Proof.
  intros Hh Ho. rewrite (same_synthesizer_run _ _ Ho).
  change (synthesize labels speed half_tone s)
    with (forward match labels with PyTuple [_; second] => second | _ => labels end
                  speed half_tone s).
  destruct Hh as [Hh | [Hh Hi]].
  - by rewrite (forward_cached _ _ _ s h Hh).
  - by rewrite (forward_fresh _ _ _ s h Hh Hi).
Qed.

(** *** The predictor *)

#[local] Instance predictor_once_po : PreOrder predictor_once.
Proof.
  split; [by split|].
  intros s1 s2 s3 [A1 B1] [A2 B2]. split; [lia | eauto].
Qed.

Lemma predictor_once_frame s s' :
  _global_marine s' = _global_marine s -> predictors s' = predictors s ->
  predictor_once s s'.
Proof. intros Hm Hp. split; [by rewrite Hm, Hp | intros p; by rewrite Hm]. Qed.

Lemma predictor_once_exec c : keeps predictor_once (exec c).
Proof.
  apply keeps_exec; [apply _ |..].
  - intros s. apply predictor_once_frame; apply load_jtalk_frame.
  - intros s.
    unfold load_marine, bind, gets, try_except, import_from, new_Predictor. simpl.
    destruct (_global_marine s) as [p|] eqn:Hm; simpl.
    { apply predictor_once_frame; done. }
    destruct (import_error "marine.predict"); simpl.
    { apply predictor_once_frame; done. }
    destruct Predictor_init; simpl; [|by apply predictor_once_frame].
    split; simpl; [rewrite Hm; tally_more | congruence].
  - intros s. apply predictor_once_frame; apply load_htsengine_frame.
  - intros name x s. pose proof (hts_mutate_frame name (set_speed x) s) as (Hm & Ht & _).
    apply predictor_once_frame; [done | unfold predictors; by rewrite Ht].
  - intros name x s.
    pose proof (hts_mutate_frame name (add_half_tone x) s) as (Hm & Ht & _).
    apply predictor_once_frame; [done | unfold predictors; by rewrite Ht].
Qed.

(** X6: the accent predictor is a singleton too.  Along any sequence of
    calls made after the import of the module at most one predictor is
    constructed, and from the moment the slot holds one, every later call
    keeps it there and constructs no other. *)
Theorem predictor_constructed_at_most_once
    (before later : list call) (fs : gmap string node) (net : list response) :
  let s := run before (import_module fs net) in
  let s' := run later s in
  predictors s' <= 1 /\
  (forall p, _global_marine s = Some p ->
     _global_marine s' = Some p /\ predictors s' = predictors s).
Proof.
  intros s s'.
  assert (K : forall cs s0, predictor_once s0 (run cs s0)).
  { intros cs s0. apply (keeps_run predictor_once). intros c _.
    apply predictor_once_exec. }
  destruct (K before (import_module fs net)) as [A0 _]. fold s in A0.
  destruct (K later s) as [A1 B1]. fold s' in A1, B1.
  change (predictors (import_module fs net)) with 0 in A0. simpl in A0.
  assert (F1 : forall A (o : option A), free o <= 1) by (intros A [x|]; simpl; lia).
  pose proof (F1 _ (_global_marine s)).
  split; [lia|].
  intros p Hp. pose proof (B1 p Hp) as Hp'. split; [done|].
  rewrite Hp, Hp' in A1. simpl in A1. lia.
Qed.

(** *** Provisioning, once *)

#[local] Instance provisioned_once_po : PreOrder provisioned_once.
Proof.
  split.
  - intros s. split; [apply Step_refl | auto].
  - intros s1 s2 s3 [S1 B1] [S2 B2]. split; [by eapply Step_trans|].
    intros HI Hb. apply B2; [by apply (st_inv _ _ S1) | by apply B1].
Qed.

Lemma load_jtalk_removals s :
  Inv s -> removals s <= 1 -> removals (snd (load_jtalk s)) <= 1.
Proof.
  intros [_ I2] Hb.
  unfold load_jtalk, _lazy_init, bind, gets, exists_, new_OpenJTalk, ret. simpl.
  destruct (_global_jtalk s); simpl; [done|].
  destruct (path_exists (OPEN_JTALK_DICT_DIR s) s) eqn:Hd; simpl.
  - destruct (OpenJTalk_init _ _); simpl; [tally_more | done].
  - assert (H0 : removals s = 0).
    { destruct (removals s) as [|n] eqn:Hn; [done|].
      assert (D : dict_ok s) by (apply I2; lia).
      unfold dict_ok in D. congruence. }
    pose proof (extract_dic_effect s) as HE. simpl in HE.
    destruct (_extract_dic s) as [[[]|e] s1]; simpl in *;
      destruct HE as (_ & _ & _ & _ & _ & _ & HR).
    + destruct HR as [_ HR].
      destruct (OpenJTalk_init _ _); simpl; [|lia]. tally_more.
    + destruct HR as [HR _]. lia.
Qed.

Lemma provisioned_once_exec c : keeps provisioned_once (exec c).
Proof.
  apply keeps_exec; [apply _ |..].
  - intros s. split; [apply respects_load_jtalk | apply load_jtalk_removals].
  - intros s. split; [apply respects_load_marine|].
    intros _ Hb. pose proof (load_marine_frame s) as (_&_&_&_&_&Hr). lia.
  - intros s. split; [apply respects_load_htsengine|].
    intros _ Hb. pose proof (load_htsengine_frame s) as (_&_&_&_&_&_&Hr). lia.
  - intros name x s. split; [by apply respects_hts_mutate|].
    intros _ Hb. pose proof (hts_mutate_frame name (set_speed x) s) as (_ & Ht & _).
    unfold removals in *. by rewrite Ht.
  - intros name x s. split; [by apply respects_hts_mutate|].
    intros _ Hb.
    pose proof (hts_mutate_frame name (add_half_tone x) s) as (_ & Ht & _).
    unfold removals in *. by rewrite Ht.
Qed.

(** X7: the dictionary is provisioned at most once per process.  However
    many requests fail and are repeated, along any sequence of calls made
    after the import of the module at most one provisioning runs to its end
    (at most one removal of the tar file is ever recorded), and when one
    has, the dictionary directory exists. *)
Theorem provisioning_succeeds_at_most_once
    (cs : list call) (fs : gmap string node) (net : list response) :
  let s := run cs (import_module fs net) in
  removals s <= 1 /\ (removals s = 1 -> dict_ok s).
Proof.
  intros s.
  assert (K : provisioned_once (import_module fs net) s).
  { apply (keeps_run provisioned_once). intros c _. apply provisioned_once_exec. }
  destruct K as [_ B]. split.
  - apply B; [apply Inv_import | unfold removals; simpl; lia].
  - intros H1. destruct (Inv_run cs fs net) as [_ I2]. apply I2. fold s. lia.
Qed.

(** *** With the dictionary in place *)

#[local] Instance offline_po : PreOrder offline.
Proof.
  split.
  - intros s _. done.
  - intros s1 s2 s3 H1 H2 D. destruct (H1 D) as (F1 & R1 & O1 & E1).
    destruct (H2 (dict_ok_frame _ _ F1 O1 D)) as (F2 & R2 & O2 & E2).
    repeat split; congruence.
Qed.

Lemma offline_frame s s' :
  files s' = files s -> remote s' = remote s ->
  OPEN_JTALK_DICT_DIR s' = OPEN_JTALK_DICT_DIR s -> io_events s' = io_events s ->
  offline s s'.
Proof. intros. by intros _. Qed.

Lemma offline_exec c : keeps offline (exec c).
Proof.
  apply keeps_exec; [apply _ |..].
  - intros s D.
    unfold load_jtalk, _lazy_init, bind, gets, exists_, new_OpenJTalk, ret. simpl.
    destruct (_global_jtalk s); simpl; [done|].
    unfold dict_ok in D. rewrite D. simpl.
    destruct (OpenJTalk_init _ _); simpl; repeat split; tally_more.
  - intros s. pose proof (load_marine_frame s) as (_&?&?&?&?&_).
    by apply offline_frame.
  - intros s. pose proof (load_htsengine_frame s) as (_&_&?&?&?&?&_).
    by apply offline_frame.
  - intros name x s. pose proof (hts_mutate_frame name (set_speed x) s) as (_&Ht&?&?&?).
    apply offline_frame; try done. unfold io_events. by rewrite Ht.
  - intros name x s.
    pose proof (hts_mutate_frame name (add_half_tone x) s) as (_&Ht&?&?&?).
    apply offline_frame; try done. unfold io_events. by rewrite Ht.
Qed.

(** X9: with the dictionary directory in place the module works offline.
    From any state in which the directory exists, no sequence of calls
    changes a file, consumes an answer of the server, prints, or rebinds
    the dictionary directory. *)
Theorem no_io_with_dictionary_in_place (cs : list call) (s : state) :
  dict_ok s ->
  files (run cs s) = files s /\
  remote (run cs s) = remote s /\
  OPEN_JTALK_DICT_DIR (run cs s) = OPEN_JTALK_DICT_DIR s /\
  io_events (run cs s) = io_events s.
Proof.
  apply (keeps_run offline). intros c _. apply offline_exec.
Qed.

(** ** The accent estimator, once more *)

Lemma load_marine_cached s p :
  _global_marine s = Some p -> load_marine s = (Ok tt, s).
Proof.
  intros Hm. unfold load_marine, bind, gets, ret. simpl. by rewrite Hm.
Qed.

Lemma estimate_accent_cached f s p :
  _global_marine s = Some p ->
  estimate_accent f s
  = (match import_error "marine.utils.openjtalk_util" with
     | Some e => Raise e
     | None => accent_pipeline p f
     end, s).
Proof.
  intros Hm. rewrite estimate_accent_unfold.
  rewrite (bind_returns _ _ _ _ _ (load_marine_cached s p Hm)).
  unfold bind, import_from, lift, method, accent_pipeline, raise, ret.
  destruct (import_error "marine.utils.openjtalk_util"); simpl; [done|].
  destruct (convert_njd_feature_to_marine_feature f); simpl; [|done].
  rewrite Hm. by destruct (Predictor_predict p _).
Qed.

Lemma estimate_accent_ok_inv f s v :
  fst (estimate_accent f s) = Ok v ->
  exists p, _global_marine (snd (estimate_accent f s)) = Some p /\
            import_error "marine.utils.openjtalk_util" = None /\
            accent_pipeline p f = Ok v.
Proof.
  destruct (_global_marine s) as [p|] eqn:Hm.
  - rewrite (estimate_accent_cached f s p Hm). simpl.
    destruct (import_error "marine.utils.openjtalk_util"); [discriminate|].
    intros Hv. exists p. done.
  - rewrite estimate_accent_unfold.
    unfold load_marine, bind, gets, try_except, import_from, new_Predictor, lift,
      method, modify, raise, ret, accent_pipeline.
    simpl. rewrite Hm. simpl.
    destruct (import_error "marine.predict"); simpl; [discriminate|].
    destruct Predictor_init as [p|e]; simpl; [|discriminate].
    destruct (import_error "marine.utils.openjtalk_util"); simpl; [discriminate|].
    destruct (convert_njd_feature_to_marine_feature f); simpl; [|discriminate].
    destruct (Predictor_predict p _) eqn:Hp; simpl; [|discriminate].
    intros Hv. exists p. by rewrite Hp.
Qed.

(** X10: with a predictor in the slot and the converter importable,
    [estimate_accent] returns what conversion, prediction on the
    one-element list and merge give, and changes nothing; and after any
    call that returned, the same call returns the same features again and
    changes nothing. *)
Theorem estimate_accent_pure_once_cached (njd_features : pyval) (s : state) :
  (forall p, _global_marine s = Some p ->
     import_error "marine.utils.openjtalk_util" = None ->
     estimate_accent njd_features s = (accent_pipeline p njd_features, s)) /\
  (forall v, fst (estimate_accent njd_features s) = Ok v ->
     let s1 := snd (estimate_accent njd_features s) in
     estimate_accent njd_features s1 = (Ok v, s1)).
Proof.
  split.
  - intros p Hm Hu. rewrite (estimate_accent_cached _ s p Hm). by rewrite Hu.
  - intros v Hv s1.
    destruct (estimate_accent_ok_inv _ _ _ Hv) as (p & Hp & Hu & Hpipe).
    fold s1 in Hp. rewrite (estimate_accent_cached _ s1 p Hp). by rewrite Hu, Hpipe.
Qed.

(** ** The pipeline *)

Lemma tts_unfold text sp ht rm s :
  tts text sp ht rm s =
  (njd_features <- run_frontend text ;;
   njd_features <- (if rm then estimate_accent njd_features else ret njd_features) ;;
   labels <- make_label njd_features ;;
   synthesize labels sp ht) s.
Proof.
  unfold tts, extract_fullcontext. rewrite bind_assoc.
  apply bind_ext. intros f s1. by rewrite bind_assoc.
Qed.

Lemma run_frontend_frame text s :
  _global_htsengine (snd (run_frontend text s)) = _global_htsengine s /\
  _global_marine (snd (run_frontend text s)) = _global_marine s.
Proof.
  rewrite run_frontend_unfold, guarded_method_state.
  pose proof (load_jtalk_frame s) as (?&?&_). done.
Qed.

(** X11: [tts] stops at the first failure, before it reaches the
    synthesizer.  If [run_frontend] raises, [tts] raises the same error and
    ends in the same state; if the accent model is asked for and the
    predictor cannot be imported, [tts] raises the guidance error right
    after the frontend.  In both cases the slot of the synthesizer is as it
    was before the call. *)
Theorem tts_fails_before_synthesis
    (text : pyval) (speed half_tone : float) (run_marine : bool) (s : state) :
  (forall e, fst (run_frontend text s) = Raise e ->
     tts text speed half_tone run_marine s = (Raise e, snd (run_frontend text s)) /\
     _global_htsengine (snd (tts text speed half_tone run_marine s))
     = _global_htsengine s) /\
  (forall f e, fst (run_frontend text s) = Ok f ->
     run_marine = true -> _global_marine s = None ->
     import_error "marine.predict" = Some e ->
     tts text speed half_tone run_marine s
     = (Raise (ImportError install_marine), snd (run_frontend text s)) /\
     _global_htsengine (snd (tts text speed half_tone run_marine s))
     = _global_htsengine s).
Proof.
  pose proof (run_frontend_frame text s) as [Hh Hm].
  split.
  - intros e He.
    assert (Ht : tts text speed half_tone run_marine s
                 = (Raise e, snd (run_frontend text s))).
    { rewrite tts_unfold. apply bind_raises.
      destruct (run_frontend text s) as [r s1]. simpl in *. by subst r. }
    rewrite Ht. done.
  - intros f e Hf -> Hs Hi.
    assert (Ht : tts text speed half_tone true s
                 = (Raise (ImportError install_marine), snd (run_frontend text s))).
    { rewrite tts_unfold.
      rewrite (bind_returns _ _ s f (snd (run_frontend text s))).
      - apply bind_raises. apply (estimate_accent_import_fails _ _ e); [|done].
        by rewrite Hm.
      - destruct (run_frontend text s) as [r s1]. simpl in *. by subst r. }
    rewrite Ht. done.
Qed.

(** ** The progress bar *)

(** X12: the hook of the progress bar reports absolute progress.  After any
    sequence of calls of [update_to], the counter of the bar is the product
    of the block count and the block size of the last call, whatever the
    counter was before; the total is the one the last call gave, or stays
    as it was when that call gave none. *)
Theorem update_to_reports_absolute_progress
    (reports : list (Z * Z * option Z)) (b bsize : Z) (tsize : option Z) (t : tqdm) :
  let t' := reported (reports ++ [(b, bsize, tsize)]) t in
  bar_n t' = (b * bsize)%Z /\
  (forall total, tsize = Some total -> bar_total t' = Some total) /\
  (tsize = None -> bar_total t' = bar_total (reported reports t)).
Proof.
  intros t'. subst t'. unfold reported. rewrite fold_left_app. simpl.
  set (t0 := fold_left _ reports t).
  unfold update_to, update. destruct tsize as [total|]; simpl.
  - split; [lia|]. split; [congruence | discriminate].
  - split; [lia|]. split; [discriminate | done].
Qed.

(** ** Calling again *)

Lemma set_htsengine_same s h :
  _global_htsengine s = Some h -> set__global_htsengine (Some h) s = s.
Proof. destruct s. simpl. by intros ->. Qed.

Lemma forward_ok_inv l sp ht s v :
  fst (forward l sp ht s) = Ok v ->
  exists h0,
    _global_htsengine (snd (forward l sp ht s)) = Some (configured h0 sp ht) /\
    returned h0 (HTSEngine_synthesize (configured h0 sp ht) l) = Ok v.
Proof.
  destruct (_global_htsengine s) as [h|] eqn:Hh.
  - rewrite (forward_cached _ _ _ s h Hh). simpl. eauto.
  - destruct (HTSEngine_init DEFAULT_HTS_VOICE (files s)) as [h|e] eqn:Hi.
    + rewrite (forward_fresh _ _ _ s h Hh Hi). simpl. eauto.
    + rewrite (forward_failed _ _ _ s e Hh Hi). simpl. discriminate.
Qed.

Lemma forward_configured l sp ht s h0 :
  _global_htsengine s = Some (configured h0 sp ht) ->
  forward l sp ht s
  = (returned h0 (HTSEngine_synthesize (configured h0 sp ht) l), s).
Proof.
  intros Hh. rewrite (forward_cached _ _ _ s _ Hh).
  change (configured (configured h0 sp ht) sp ht) with (configured h0 sp ht).
  rewrite (set_htsengine_same s _ Hh).
  by destruct (HTSEngine_synthesize (configured h0 sp ht) l).
Qed.

Lemma settled_bind {A B} (m : M A) (k : A -> M B) :
  settled m -> (forall a, settled (k a)) -> (forall a, respects (k a)) ->
  settled (bind m k).
Proof.
  intros Hm Hk Rk s v Hok s' S'.
  destruct (bind_ok_inv _ _ _ _ Hok) as (a & Ha & Heq).
  rewrite Heq in Hok, S'.
  assert (S1 : Step (snd (m s)) s').
  { eapply Step_trans; [apply (Rk a) | exact S']. }
  rewrite (bind_returns _ _ _ _ _ (Hm s a Ha s' S1)).
  by apply (Hk a (snd (m s))).
Qed.

Lemma settled_ret {A} (a : A) : settled (ret a).
Proof. intros s v [= <-] s' _. done. Qed.

Lemma settled_guarded {A} name (f : OpenJTalk -> result A) :
  settled (load_jtalk ;;; method _global_jtalk name f).
Proof.
  intros s v Hok s' S'.
  destruct (guarded_method_ok _ _ _ _ Hok) as (h & Hh & Hf).
  rewrite guarded_method_state in S'.
  rewrite (guarded_method_cached name f s' h (st_jtalk _ _ S' h Hh)).
  by rewrite Hf.
Qed.

Lemma settled_run_frontend text : settled (run_frontend text).
Proof.
  intros s v. rewrite run_frontend_unfold. intros Hok s' S'.
  rewrite run_frontend_unfold. by apply (settled_guarded _ _ s v Hok).
Qed.

Lemma settled_make_label f : settled (make_label f).
Proof.
  intros s v. rewrite make_label_unfold. intros Hok s' S'.
  rewrite make_label_unfold. by apply (settled_guarded _ _ s v Hok).
Qed.

Lemma settled_g2p args kwargs : settled (g2p args kwargs).
Proof.
  intros s v. rewrite g2p_unfold. intros Hok s' S'.
  rewrite g2p_unfold. by apply (settled_guarded _ _ s v Hok).
Qed.

Lemma settled_estimate_accent f : settled (estimate_accent f).
Proof.
  intros s v Hok s' S'.
  destruct (estimate_accent_ok_inv _ _ _ Hok) as (p & Hp & Hu & Hpipe).
  rewrite (estimate_accent_cached f s' p (st_marine _ _ S' p Hp)).
  by rewrite Hu, Hpipe.
Qed.

Lemma settled_extract_fullcontext text rm : settled (extract_fullcontext text rm).
Proof.
  unfold extract_fullcontext.
  apply settled_bind; [apply settled_run_frontend | |].
  - intros f. apply settled_bind; [|apply settled_make_label|apply respects_make_label].
    destruct rm; [apply settled_estimate_accent | apply settled_ret].
  - intros f. apply respects_bind; [|apply respects_make_label].
    destruct rm; [apply respects_estimate_accent | apply respects_ret].
Qed.

(** X13: [tts] can be called again.  After a call of [tts] that returned,
    the same call (same text, speed, half tone and accent flag) returns the
    same waveform and sample rate and leaves the state exactly as it found
    it: nothing is initialised, downloaded or constructed a second time. *)
Theorem tts_is_repeatable
    (text : pyval) (speed half_tone : float) (run_marine : bool)
    (s : state) (v : pyval) :
  fst (tts text speed half_tone run_marine s) = Ok v ->
  let s' := snd (tts text speed half_tone run_marine s) in
  tts text speed half_tone run_marine s' = (Ok v, s').
Proof.
  intros Hok s'. subst s'. unfold tts in *.
  destruct (bind_ok_inv _ _ _ _ Hok) as (l & Hl & Heq).
  rewrite Heq in *.
  set (s3 := snd (extract_fullcontext text run_marine s)) in *.
  set (sent := match l with PyTuple [_; second] => second | _ => l end).
  change (synthesize l speed half_tone) with (forward sent speed half_tone) in *.
  destruct (forward_ok_inv _ _ _ _ _ Hok) as (h0 & Hh4 & Hv).
  pose proof (respects_synthesize l speed half_tone s3) as R4.
  change (synthesize l speed half_tone) with (forward sent speed half_tone) in R4.
  rewrite (bind_returns _ _ _ _ _
             (settled_extract_fullcontext text run_marine s l Hl _ R4)).
  change (synthesize l speed half_tone) with (forward sent speed half_tone).
  rewrite (forward_configured _ _ _ _ h0 Hh4). by rewrite Hv.
Qed.

(** X14: what the analysis returned once, it returns ever after.  After a
    call of [g2p], [run_frontend], [make_label], [estimate_accent] or
    [extract_fullcontext] that returned, the same call made after any
    further sequence of calls returns the same value and leaves the state
    as it finds it. *)
Theorem analysis_results_are_stable
    (c : call) (s : state) (v : pyval) (later : list call) :
  touches_synthesizer c = false ->
  fst (exec c s) = Ok v ->
  let s' := run later (snd (exec c s)) in
  exec c s' = (Ok v, s').
Proof.
  intros Hc Hok s'.
  assert (Hs : settled (exec c)).
  { destruct c as [args kw|f|text rm|l sp ht|text sp ht rm|text|f]; simpl in *;
      try discriminate;
      auto using settled_g2p, settled_estimate_accent, settled_extract_fullcontext,
                 settled_run_frontend, settled_make_label. }
  apply (Hs s v Hok). apply Step_run.
Qed.

(** ** Failed and finished provisionings *)

Lemma exec_provisioning_raises c s e :
  starts_with_analyzer c = true ->
  _global_jtalk s = None -> ~ dict_ok s ->
  fst (_extract_dic s) = Raise e ->
  exec c s = (Raise e, snd (_extract_dic s)).
Proof.
  intros Hc Hj Hd He.
  assert (Hl : load_jtalk s = (Raise e, snd (_extract_dic s))).
  { apply load_jtalk_raises; [done|]. rewrite (lazy_init_missing s Hd).
    destruct (_extract_dic s) as [r s1]. simpl in *. by subst r. }
  destruct c as [args kw|f|text rm|l sp ht|text sp ht rm|text|f]; simpl in *;
    try discriminate.
  - rewrite g2p_unfold. by apply guarded_raises.
  - unfold extract_fullcontext. apply bind_raises.
    rewrite run_frontend_unfold. by apply guarded_raises.
  - unfold tts, extract_fullcontext. rewrite bind_assoc. apply bind_raises.
    rewrite run_frontend_unfold. by apply guarded_raises.
  - rewrite run_frontend_unfold. by apply guarded_raises.
  - rewrite make_label_unfold. by apply guarded_raises.
Qed.

(** X15: a download that failed is tried again by the next call.  At any
    point of a run where the dictionary directory is missing and the server
    cannot be reached, a call of [g2p], [run_frontend], [make_label],
    [extract_fullcontext] or [tts] raises the error of the request after
    that one attempt; the directory is still missing afterwards, and the
    next such call sends a new request. *)
Theorem unreachable_server_is_retried
    (cs : list call) (fs : gmap string node) (net : list response)
    (c next : call) (e : exn) (rest : list response) :
  let s := run cs (import_module fs net) in
  ~ dict_ok s ->
  remote s = Unreachable e :: rest ->
  starts_with_analyzer c = true ->
  starts_with_analyzer next = true ->
  let s' := snd (exec c s) in
  fst (exec c s) = Raise e /\
  downloads s' = S (downloads s) /\
  ~ dict_ok s' /\
  downloads (snd (exec next s')) = S (downloads s').
Proof.
  intros s Hd Hr Hc Hn s'.
  pose proof (Inv_run cs fs net) as HI. fold s in HI.
  pose proof (Inv_empty_slot s HI Hd) as Hj.
  destruct (extract_dic_unreachable s e rest Hr) as (He & Hf & Ho & _).
  pose proof (exec_provisioning_raises c s e Hc Hj Hd He) as Hx.
  assert (Hd' : ~ dict_ok s').
  { subst s'. rewrite Hx. simpl. intros D. apply Hd.
    revert D. unfold dict_ok, path_exists. by rewrite Hf, Ho. }
  assert (HI' : Inv s').
  { apply (st_inv _ _ (respects_exec c s)), HI. }
  split; [by rewrite Hx|]. split; [|split; [exact Hd'|]].
  - apply (exec_provisions_once c s HI Hd Hc).
  - apply (exec_provisions_once next s' HI' Hd' Hn).
Qed.


End Pyopenjtalk.

(** * Concrete runs *)

(** C1 fails as stated: the variable is set to a path that does not exist,
    and the first [run_frontend] downloads the archive; the analyzer is then
    constructed on the directory of the package and the call returns. *)
Lemma override_missing_path_downloads :
  let s0 := @import_module with_marine overridden empty_disk [Served Dictionary] in
  let out := @run_frontend with_marine overridden (PyStr "a") s0 in
  getenv_OPEN_JTALK_DICT_DIR overridden = Some "/opt/dict" /\
  path_exists "/opt/dict" s0 = false /\
  downloads (snd out) = 1 /\
  fst out = Ok (PyList [PyStr "a"]) /\
  _global_jtalk (snd out) = Some "/site-packages/pyopenjtalk/open_jtalk_dic_utf_8-1.11".
Proof. vm_compute. repeat split. Qed.

Lemma override_skips_download_only_when_present_witness :
  getenv_OPEN_JTALK_DICT_DIR overridden = Some "/opt/dict" /\
  is_Some (disk_with "/opt/dict" !! "/opt/dict") /\
  (forall cs,
     let s := @run with_marine overridden cs
                (@import_module with_marine overridden (disk_with "/opt/dict") []) in
     downloads s = 0 /\ OPEN_JTALK_DICT_DIR s = "/opt/dict") /\
  empty_disk !! "/opt/dict" = None /\
  downloads
    (snd (@exec with_marine overridden (Call_make_label PyNone)
            (@import_module with_marine overridden empty_disk []))) = 1.
Proof.
  split; [reflexivity|]. split; [vm_compute; eauto|]. split; [|split].
  - apply (@override_skips_download_only_when_present with_marine overridden
             "/opt/dict" (disk_with "/opt/dict") [] eq_refl).
    vm_compute. eauto.
  - reflexivity.
  - apply (@override_skips_download_only_when_present with_marine overridden
             "/opt/dict" empty_disk [] eq_refl); reflexivity.
Defined.

(** C5 fails as stated: with no dictionary directory on disk, a call of
    [synthesize], and a call of [estimate_accent], send no request. *)
Lemma synthesize_does_not_provision :
  let s0 := @import_module with_marine plain empty_disk [Served Dictionary] in
  path_exists (OPEN_JTALK_DICT_DIR s0) s0 = false /\
  downloads (snd (@exec with_marine plain (Call_synthesize (PyList []) 1 0) s0)) = 0 /\
  downloads (snd (@exec with_marine plain (Call_estimate_accent (PyList [])) s0)) = 0.
Proof. vm_compute. repeat split. Qed.

Lemma provisioning_attempts_witness :
  let s0 := @import_module with_marine plain empty_disk [Served Dictionary] in
  let s1 := @run with_marine plain [Call_run_frontend (PyStr "a")] s0 in
  ~ dict_ok s0 /\
  downloads (snd (@exec with_marine plain (Call_tts (PyStr "a") 1 0 false) s0)) = 0 + 1 /\
  0 < removals s1 /\
  (forall later, downloads (@run with_marine plain later s1) = downloads s1).
Proof.
  assert (D : ~ dict_ok
                (@import_module with_marine plain empty_disk [Served Dictionary])).
  { unfold dict_ok. vm_compute. discriminate. }
  assert (R : 0 < removals
                (@run with_marine plain [Call_run_frontend (PyStr "a")]
                   (@import_module with_marine plain empty_disk [Served Dictionary]))).
  { vm_compute. lia. }
  split; [exact D|]. split; [|split; [exact R|]].
  - apply (@provisioning_attempts with_marine plain [] (Call_tts (PyStr "a") 1 0 false)
             empty_disk [Served Dictionary]). exact D.
  - apply (@provisioning_attempts with_marine plain [Call_run_frontend (PyStr "a")]
             (Call_make_label PyNone) empty_disk [Served Dictionary]). exact R.
Defined.

(** C8 fails as stated: on a fresh process without the dictionary, a call of
    [make_label] downloads and extracts the archive, removes the tar file,
    rebinds the dictionary directory and fills the slot of the analyzer. *)
Lemma make_label_has_side_effects :
  let s0 := @import_module with_marine plain empty_disk [Served Dictionary] in
  let s1 := snd (@make_label with_marine plain (PyList []) s0) in
  s1 <> s0 /\
  downloads s1 = 1 /\ removals s1 = 1 /\ analyzers s1 = 1 /\
  path_exists "/site-packages/pyopenjtalk/open_jtalk_dic_utf_8-1.11" s0 = false /\
  path_exists "/site-packages/pyopenjtalk/open_jtalk_dic_utf_8-1.11" s1 = true /\
  _global_jtalk s0 = None /\
  _global_jtalk s1 = Some "/site-packages/pyopenjtalk/open_jtalk_dic_utf_8-1.11".
Proof.
  split; [|vm_compute; repeat split].
  intros H. apply (f_equal (@_global_jtalk with_marine)) in H.
  vm_compute in H. discriminate.
Qed.

Lemma make_label_pure_once_cached_witness :
  let s0 := @import_module with_marine plain empty_disk [Served Dictionary] in
  let s1 := snd (@make_label with_marine plain (PyList []) s0) in
  _global_jtalk s1 = Some "/site-packages/pyopenjtalk/open_jtalk_dic_utf_8-1.11" /\
  @make_label with_marine plain (PyStr "f") s1 = (Ok (PyList [PyStr "f"]), s1) /\
  fst (@make_label with_marine plain (PyList []) s0) = Ok (PyList [PyList []]) /\
  @make_label with_marine plain (PyList []) s1 = (Ok (PyList [PyList []]), s1).
Proof.
  split; [reflexivity|]. split; [|split; [reflexivity|]].
  - apply (proj1 (@make_label_pure_once_cached with_marine plain (PyStr "f") _)
             "/site-packages/pyopenjtalk/open_jtalk_dic_utf_8-1.11").
    reflexivity.
  - apply (proj2 (@make_label_pure_once_cached with_marine plain (PyList [])
                    (@import_module with_marine plain empty_disk [Served Dictionary]))).
    reflexivity.
Defined.

(** C10 fails as stated: the predictor class imports, its construction
    raises, and [estimate_accent] lets that error through instead of the
    guidance error. *)
Lemma predictor_construction_is_unguarded :
  let s0 := @import_module broken_model plain empty_disk [] in
  @import_error broken_model "marine.predict" = None /\
  @Predictor_init broken_model = Raise (Exn "RuntimeError" "model file not found") /\
  fst (@estimate_accent broken_model (PyList []) s0)
  = Raise (Exn "RuntimeError" "model file not found") /\
  fst (@estimate_accent broken_model (PyList []) s0)
  <> Raise (ImportError install_marine).
Proof. vm_compute. repeat split. discriminate. Qed.

Lemma estimate_accent_guards_import_only_witness :
  let absent := @import_module without_marine plain empty_disk [] in
  let broken := @import_module broken_model plain empty_disk [] in
  let late := @import_module broken_converter plain empty_disk [] in
  _global_marine absent = None /\
  @import_error without_marine "marine.predict"
    = Some (ModuleNotFoundError "No module named 'marine'") /\
  @estimate_accent without_marine PyNone absent
    = (Raise (ImportError install_marine), absent) /\
  @Predictor_init broken_model = Raise (Exn "RuntimeError" "model file not found") /\
  @estimate_accent broken_model PyNone broken
    = (Raise (Exn "RuntimeError" "model file not found"), broken) /\
  @import_error broken_converter "marine.utils.openjtalk_util"
    = Some (ImportError "cannot import name") /\
  @estimate_accent broken_converter PyNone late
    = (Raise (ImportError "cannot import name"),
       @set__global_marine broken_converter (Some tt) (log NewPredictor late)).
Proof.
  intros absent broken late.
  split; [reflexivity|]. split; [reflexivity|]. split; [|split; [reflexivity|split]].
  - apply (proj1 (@estimate_accent_guards_import_only without_marine PyNone absent
                    eq_refl) (ModuleNotFoundError "No module named 'marine'")).
    reflexivity.
  - apply (proj1 (proj2 (@estimate_accent_guards_import_only broken_model PyNone
                           broken eq_refl))); reflexivity.
  - split; [reflexivity|].
    apply (proj2 (proj2 (@estimate_accent_guards_import_only broken_converter
                           PyNone late eq_refl)) tt); reflexivity.
Defined.

Lemma estimate_accent_without_marine_witness :
  let s := @run without_marine plain
             [Call_synthesize (PyList []) 1 0; Call_estimate_accent PyNone]
             (@import_module without_marine plain empty_disk []) in
  @import_error without_marine "marine.predict"
    = Some (ModuleNotFoundError "No module named 'marine'") /\
  @estimate_accent without_marine (PyList []) s
    = (Raise (ImportError install_marine), s).
Proof.
  split; [reflexivity|].
  apply (@estimate_accent_without_marine without_marine plain
           [Call_synthesize (PyList []) 1 0; Call_estimate_accent PyNone]
           empty_disk [] (PyList []) "No module named 'marine'" eq_refl).
Defined.

Lemma synthesize_unwraps_pairs_only_witness :
  let s0 := @import_module with_marine plain empty_disk [] in
  @synthesize with_marine plain (PyTuple [PyNone; PyList [PyStr "a"]]) 2 0 s0
    = @forward with_marine plain (PyList [PyStr "a"]) 2 0 s0 /\
  @synthesize with_marine plain (PyStr "a") 2 0 s0
    = @forward with_marine plain (PyStr "a") 2 0 s0 /\
  length [PyNone; PyList []; PyNone] <> 2 /\
  @synthesize with_marine plain (PyTuple [PyNone; PyList []; PyNone]) 2 0 s0
    = @forward with_marine plain (PyTuple [PyNone; PyList []; PyNone]) 2 0 s0 /\
  @synthesize with_marine plain (PyList [PyNone; PyList []]) 2 0 s0
    = @forward with_marine plain (PyList [PyNone; PyList []]) 2 0 s0.
Proof.
  intros s0.
  split; [|split; [|split; [simpl; lia|split]]].
  - apply (proj1 (@synthesize_unwraps_pairs_only with_marine plain
             (PyTuple [PyNone; PyList [PyStr "a"]]) 2 0 s0)
             PyNone (PyList [PyStr "a"]) eq_refl).
  - apply (proj1 (proj2 (@synthesize_unwraps_pairs_only with_marine plain
             (PyStr "a") 2 0 s0))).
    intros a b. discriminate.
  - apply (proj1 (proj2 (proj2 (@synthesize_unwraps_pairs_only with_marine plain
             (PyTuple [PyNone; PyList []; PyNone]) 2 0 s0))) _ eq_refl).
    simpl. lia.
  - apply (proj2 (proj2 (proj2 (@synthesize_unwraps_pairs_only with_marine plain
             (PyList [PyNone; PyList []]) 2 0 s0))) _ eq_refl).
Defined.

Lemma handles_constructed_at_most_once_witness :
  let s := @run with_marine plain
             [Call_tts (PyStr "a") 1 0 false]
             (@import_module with_marine plain empty_disk [Served Dictionary]) in
  let s' := @run with_marine plain
              [Call_synthesize (PyList []) 2 3; Call_g2p [PyStr "a"] []] s in
  _global_jtalk s = Some "/site-packages/pyopenjtalk/open_jtalk_dic_utf_8-1.11" /\
  _global_jtalk s' = Some "/site-packages/pyopenjtalk/open_jtalk_dic_utf_8-1.11" /\
  analyzers s' = analyzers s /\
  is_Some (_global_htsengine s) /\
  synthesizers s' <= 1.
Proof.
  pose proof (@handles_constructed_at_most_once with_marine plain
                [Call_tts (PyStr "a") 1 0 false]
                [Call_synthesize (PyList []) 2 3; Call_g2p [PyStr "a"] []]
                empty_disk [Served Dictionary]) as H.
  simpl in H. destruct H as (_ & HS & HJ & _).
  split; [reflexivity|]. split; [|split; [|split]].
  - apply HJ. reflexivity.
  - apply (HJ "/site-packages/pyopenjtalk/open_jtalk_dic_utf_8-1.11"). reflexivity.
  - vm_compute. eauto.
  - exact HS.
Defined.

(** ** Instances of the further properties *)


Lemma provisioning_failure_witness :
  let down :=
    @import_module with_marine plain empty_disk [Unreachable (URLError "timed out")] in
  let bad :=
    @import_module with_marine plain empty_disk
      [Served (Malformed (ReadError "unexpected end of data") false)] in
  remote down = [Unreachable (URLError "timed out")] /\
  fst (@_extract_dic with_marine plain down) = Raise (URLError "timed out") /\
  files (snd (@_extract_dic with_marine plain down)) = files down /\
  remote bad = [Served (Malformed (ReadError "unexpected end of data") false)] /\
  fst (@_extract_dic with_marine plain bad) = Raise (ReadError "unexpected end of data") /\
  files (snd (@_extract_dic with_marine plain bad)) !! plain_tarball
  = Some (File (Some (Malformed (ReadError "unexpected end of data") false))).
Proof.
  intros down bad.
  destruct (proj1 (@provisioning_failure with_marine plain down (URLError "timed out"))
              [] eq_refl) as (H1 & H2 & _).
  destruct (proj2 (@provisioning_failure with_marine plain bad
                     (ReadError "unexpected end of data")) false [] eq_refl)
    as (H3 & H4 & _).
  split; [reflexivity|]. split; [exact H1|]. split; [exact H2|].
  split; [reflexivity|]. split; [exact H3 | exact H4].
Defined.

Lemma partial_extraction_blocks_provisioning_witness :
  let s :=
    @import_module with_marine plain empty_disk
      [Served (Malformed (ReadError "unexpected end of data") true); Served Dictionary] in
  let s' := snd (@run_frontend with_marine plain (PyStr "a") s) in
  _global_jtalk s = None /\
  OPEN_JTALK_DICT_DIR s = packaged_dict plain /\
  files s !! packaged_dict plain = None /\
  fst (@run_frontend with_marine plain (PyStr "a") s)
  = Raise (ReadError "unexpected end of data") /\
  dict_ok s' /\
  downloads (@run with_marine plain [Call_tts (PyStr "a") 1 0 false] s') = downloads s'.
Proof.
  intros s s'.
  destruct (@partial_extraction_blocks_provisioning with_marine plain s
              (ReadError "unexpected end of data") [Served Dictionary] (PyStr "a")
              eq_refl eq_refl eq_refl eq_refl) as (H1 & _ & H3 & H4).
  split; [reflexivity|]. split; [reflexivity|]. split; [reflexivity|].
  split; [exact H1|]. split; [exact H3 | apply H4].
Defined.

Lemma failed_construction_leaves_no_trace_witness :
  let s := @import_module unusable_dictionary plain (disk_with plain_dict) [] in
  _global_jtalk s = None /\
  dict_ok s /\
  @OpenJTalk_init unusable_dictionary (OPEN_JTALK_DICT_DIR s) (files s)
  = Raise (Exn "RuntimeError" "Failed to initalize Mecab") /\
  @exec unusable_dictionary plain (Call_tts (PyStr "a") 1 0 false) s
  = (Raise (Exn "RuntimeError" "Failed to initalize Mecab"), s).
Proof.
  intros s.
  assert (D : dict_ok s) by (unfold dict_ok; vm_compute; reflexivity).
  split; [reflexivity|]. split; [exact D|]. split; [reflexivity|].
  apply (@failed_construction_leaves_no_trace unusable_dictionary plain
           (Call_tts (PyStr "a") 1 0 false) s _ eq_refl eq_refl D eq_refl).
Defined.

Lemma analyzer_functions_share_one_handle_witness :
  let s := @import_module with_marine plain (disk_with plain_dict) [] in
  let s1 := snd (@exec with_marine plain (Call_g2p [PyStr "a"] []) s) in
  fst (@exec with_marine plain (Call_g2p [PyStr "a"] []) s) = Ok (PyStr "") /\
  exists h, _global_jtalk s1 = Some h /\
    @make_label with_marine plain PyNone s1
    = (@OpenJTalk_make_label with_marine h PyNone, s1).
Proof.
  intros s s1. split; [reflexivity|].
  destruct (@analyzer_functions_share_one_handle with_marine plain
              (Call_g2p [PyStr "a"] []) s (PyStr "") eq_refl eq_refl)
    as (h & Hh & _ & _ & Hm).
  exists h. split; [exact Hh | apply Hm].
Defined.

Lemma synthesizer_settings_persist_witness :
  let s := @import_module with_marine plain (disk_with plain_dict) [] in
  let h := {| voice := "/site-packages/pyopenjtalk/htsvoice/mei_normal.htsvoice";
              sampling_frequency := 48000; speed := 1; half_tone := 0 |} in
  _global_htsengine s = None /\
  @HTSEngine_init with_marine (DEFAULT_HTS_VOICE plain) (files s) = Ok h /\
  _global_htsengine
    (@run with_marine plain
       [Call_run_frontend (PyStr "a"); Call_estimate_accent PyNone]
       (snd (@synthesize with_marine plain (PyList []) 2 3 s)))
  = Some (configured h 2 3).
Proof.
  intros s h. split; [reflexivity|]. split; [reflexivity|].
  apply (@synthesizer_settings_persist with_marine plain (PyList []) 2 3 s h).
  - right. split; reflexivity.
  - intros c [<- | [<- | []]]; reflexivity.
Defined.

Lemma predictor_constructed_at_most_once_witness :
  let s := @run with_marine plain [Call_estimate_accent PyNone]
             (@import_module with_marine plain empty_disk []) in
  let s' := @run with_marine plain
              [Call_estimate_accent (PyList []); Call_synthesize (PyList []) 1 0] s in
  _global_marine s = Some tt /\
  _global_marine s' = Some tt /\
  predictors s' = predictors s.
Proof.
  intros s s'. split; [reflexivity|].
  apply (proj2 (@predictor_constructed_at_most_once with_marine plain
                  [Call_estimate_accent PyNone]
                  [Call_estimate_accent (PyList []); Call_synthesize (PyList []) 1 0]
                  empty_disk []) tt).
  reflexivity.
Defined.

Lemma provisioning_succeeds_at_most_once_witness :
  let s := @run with_marine plain
             [Call_run_frontend (PyStr "a"); Call_make_label PyNone]
             (@import_module with_marine plain empty_disk
                [Unreachable (URLError "timed out"); Served Dictionary]) in
  removals s = 1 /\ dict_ok s.
Proof.
  intros s.
  assert (R : removals s = 1) by (vm_compute; reflexivity).
  split; [exact R|].
  apply (proj2 (@provisioning_succeeds_at_most_once with_marine plain
                  [Call_run_frontend (PyStr "a"); Call_make_label PyNone] empty_disk
                  [Unreachable (URLError "timed out"); Served Dictionary])).
  exact R.
Defined.

Lemma no_io_with_dictionary_in_place_witness :
  let s := @import_module with_marine plain (disk_with plain_dict) [Served Dictionary] in
  let s' := @run with_marine plain
              [Call_tts (PyStr "a") 1 0 true; Call_g2p [PyStr "a"] []] s in
  dict_ok s /\
  files s' = files s /\ remote s' = remote s /\
  OPEN_JTALK_DICT_DIR s' = OPEN_JTALK_DICT_DIR s /\ io_events s' = io_events s.
Proof.
  intros s s'.
  assert (D : dict_ok s) by (unfold dict_ok; vm_compute; reflexivity).
  split; [exact D|].
  apply (@no_io_with_dictionary_in_place with_marine plain
           [Call_tts (PyStr "a") 1 0 true; Call_g2p [PyStr "a"] []] s D).
Defined.

Lemma estimate_accent_pure_once_cached_witness :
  let s := @import_module with_marine plain empty_disk [] in
  let s1 := snd (@estimate_accent with_marine (PyStr "f") s) in
  fst (@estimate_accent with_marine (PyStr "f") s) = Ok (PyStr "f") /\
  @estimate_accent with_marine (PyStr "f") s1 = (Ok (PyStr "f"), s1) /\
  _global_marine s1 = Some tt /\
  @import_error with_marine "marine.utils.openjtalk_util" = None /\
  @estimate_accent with_marine (PyList []) s1
  = (@accent_pipeline with_marine tt (PyList []), s1).
Proof.
  intros s s1. split; [reflexivity|]. split; [|split; [reflexivity|split]].
  - apply (proj2 (@estimate_accent_pure_once_cached with_marine (PyStr "f") s)).
    reflexivity.
  - reflexivity.
  - apply (proj1 (@estimate_accent_pure_once_cached with_marine (PyList []) s1) tt);
      reflexivity.
Defined.

Lemma tts_fails_before_synthesis_witness :
  let offline_ := @import_module with_marine plain empty_disk [] in
  let bare := @import_module without_marine plain (disk_with plain_dict) [] in
  fst (@run_frontend with_marine plain (PyStr "a") offline_)
  = Raise (URLError "no route to host") /\
  fst (@tts with_marine plain (PyStr "a") 1 0 false offline_)
  = Raise (URLError "no route to host") /\
  fst (@run_frontend without_marine plain (PyStr "a") bare) = Ok (PyList [PyStr "a"]) /\
  _global_marine bare = None /\
  @import_error without_marine "marine.predict"
  = Some (ModuleNotFoundError "No module named 'marine'") /\
  fst (@tts without_marine plain (PyStr "a") 1 0 true bare)
  = Raise (ImportError install_marine) /\
  _global_htsengine (snd (@tts without_marine plain (PyStr "a") 1 0 true bare)) = None.
Proof.
  intros offline_ bare.
  destruct (proj1 (@tts_fails_before_synthesis with_marine plain (PyStr "a") 1 0 false
                     offline_) (URLError "no route to host") eq_refl) as [H1 _].
  destruct (proj2 (@tts_fails_before_synthesis without_marine plain (PyStr "a") 1 0
                     true bare) (PyList [PyStr "a"])
              (ModuleNotFoundError "No module named 'marine'")
              eq_refl eq_refl eq_refl eq_refl) as [H2 H3].
  split; [reflexivity|]. split; [by rewrite H1|]. split; [reflexivity|].
  split; [reflexivity|]. split; [reflexivity|]. split; [by rewrite H2 | exact H3].
Defined.

Lemma update_to_reports_absolute_progress_witness :
  let t0 := {| bar_n := 0; bar_total := None |} in
  let t' := reported [(0, 8192, Some 1000000); (1, 8192, Some 1000000);
                      (3, 8192, None)]%Z t0 in
  bar_n t' = (3 * 8192)%Z /\
  bar_total t' = Some 1000000%Z /\
  bar_total (reported [(0, 8192, Some 1000000); (1, 8192, Some 1000000)]%Z t0)
  = Some 1000000%Z.
Proof.
  intros t0 t'.
  destruct (update_to_reports_absolute_progress
              [(0, 8192, Some 1000000); (1, 8192, Some 1000000)]%Z 3 8192 None t0)
    as (H1 & _ & H3).
  split; [exact H1|]. split; [exact (eq_trans (H3 eq_refl) eq_refl) | reflexivity].
Defined.

Lemma tts_is_repeatable_witness :
  let s := @import_module with_marine plain empty_disk [Served Dictionary] in
  let v := PyTuple [PyList [PyFloat 2; PyFloat 0; PyList [PyList [PyStr "a"]]];
                    PyInt 48000] in
  let s' := snd (@tts with_marine plain (PyStr "a") 2 0 true s) in
  fst (@tts with_marine plain (PyStr "a") 2 0 true s) = Ok v /\
  @tts with_marine plain (PyStr "a") 2 0 true s' = (Ok v, s').
Proof.
  intros s v s'.
  assert (H : fst (@tts with_marine plain (PyStr "a") 2 0 true s) = Ok v)
    by (vm_compute; reflexivity).
  split; [exact H|].
  apply (@tts_is_repeatable with_marine plain (PyStr "a") 2 0 true s v H).
Defined.

Lemma analysis_results_are_stable_witness :
  let s := @import_module with_marine plain empty_disk [Served Dictionary] in
  let c := Call_extract_fullcontext (PyStr "a") true in
  let s' := @run with_marine plain
              [Call_synthesize (PyList []) 2 1; Call_g2p [] []]
              (snd (@exec with_marine plain c s)) in
  touches_synthesizer c = false /\
  fst (@exec with_marine plain c s) = Ok (PyList [PyList [PyStr "a"]]) /\
  @exec with_marine plain c s' = (Ok (PyList [PyList [PyStr "a"]]), s').
Proof.
  intros s c s'.
  assert (H : fst (@exec with_marine plain c s) = Ok (PyList [PyList [PyStr "a"]]))
    by (vm_compute; reflexivity).
  split; [reflexivity|]. split; [exact H|].
  apply (@analysis_results_are_stable with_marine plain c s _
           [Call_synthesize (PyList []) 2 1; Call_g2p [] []] eq_refl H).
Defined.

Lemma unreachable_server_is_retried_witness :
  let s := @run with_marine plain [Call_synthesize (PyList []) 1 0]
             (@import_module with_marine plain empty_disk
                [Unreachable (URLError "timed out"); Served Dictionary]) in
  let s' := snd (@exec with_marine plain (Call_run_frontend (PyStr "a")) s) in
  ~ dict_ok s /\
  remote s = [Unreachable (URLError "timed out"); Served Dictionary] /\
  fst (@exec with_marine plain (Call_run_frontend (PyStr "a")) s)
  = Raise (URLError "timed out") /\
  downloads (snd (@exec with_marine plain (Call_g2p [PyStr "a"] []) s'))
  = S (downloads s').
Proof.
  intros s s'.
  assert (D : ~ dict_ok s) by (unfold dict_ok; vm_compute; discriminate).
  destruct (@unreachable_server_is_retried with_marine plain
              [Call_synthesize (PyList []) 1 0] empty_disk
              [Unreachable (URLError "timed out"); Served Dictionary]
              (Call_run_frontend (PyStr "a")) (Call_g2p [PyStr "a"] [])
              (URLError "timed out") [Served Dictionary] D eq_refl eq_refl eq_refl)
    as (H1 & _ & _ & H4).
  split; [exact D|]. split; [reflexivity|]. split; [exact H1 | exact H4].
Defined.
